(** * Ledger engine of the tilapia suite: a shallow embedding of app.py

    The accounting functions of [src/app.py] are embedded as Rocq functions
    over an explicit store (the tables the program reads and writes through
    its database client).  Money and quantities are exact rationals ([Q]),
    calendar dates are day numbers ([Z]), and the Python dictionaries the
    program builds are insertion-ordered association lists. *)

From Stdlib Require Import String List Bool ZArith QArith Qabs Lqa Lia.
From Stdlib Require Import DecimalString Permutation Sorted.
Import ListNotations.

Open Scope string_scope.
Open Scope Q_scope.

(** ** Numbers *)

(** The tolerance literal [0.01] of the source. *)
Definition cent : Q := 1 # 100.

Definition Qltb (x y : Q) : bool := negb (Qle_bool y x).
Definition Qgtb (x y : Q) : bool := Qltb y x.

(** Python's [sum(...)]: a left fold that starts from [0]. *)
Definition sum (xs : list Q) : Q := fold_left Qplus xs 0.

(** Python's [str.startswith] with one prefix or a tuple of prefixes. *)
Definition startswith (s p : string) : bool := String.prefix p s.
Definition startswith_any (s : string) (ps : list string) : bool :=
  existsb (startswith s) ps.

(** ** Dictionaries

    A Python [dict] keeps its keys in insertion order; assigning to a key
    that is already present replaces the value in place. *)

Module Dict.
Section WithValue.
Context {V : Type}.

Definition t := list (string * V).

Fixpoint get (d : t) (k : string) : option V :=
  match d with
  | [] => None
  | (k', v) :: d' => if String.eqb k' k then Some v else get d' k
  end.

Definition mem (d : t) (k : string) : bool :=
  match get d k with Some _ => true | None => false end.

Fixpoint set (d : t) (k : string) (v : V) : t :=
  match d with
  | [] => [(k, v)]
  | (k', v') :: d' =>
      if String.eqb k' k then (k', v) :: d' else (k', v') :: set d' k v
  end.

Definition get_default (d : t) (k : string) (dflt : V) : V :=
  match get d k with Some v => v | None => dflt end.

Definition keys (d : t) : list string := map fst d.
Definition values (d : t) : list V := map snd d.

(** [{key(x): value(x) for x in xs}] *)
Definition of_list {A : Type} (key : A -> string) (value : A -> V)
    (xs : list A) : t :=
  fold_left (fun d x => set d (key x) (value x)) xs [].
End WithValue.
Arguments t : clear implicits.
End Dict.

(** ** The store *)

Record Account := mkAccount {
  account_code : string;
  account_name : string;
  account_type : string;
  normal_balance : string;
  beginning_balance : Q
}.

Record JournalEntry := mkJournalEntry {
  je_id : Z;
  je_date : Z;
  je_account_code : string;
  je_account_name : string;
  je_description : string;
  je_debit : Q;
  je_credit : Q;
  je_journal_type : string;
  je_ref_code : string;
  je_transaction_id : string
}.

Record Sale := mkSale {
  sale_id : Z;
  sale_date : Z;
  sale_item_name : string;
  sale_quantity : Q;
  sale_unit_price : Q;
  sale_total_amount : Q;
  sale_employee_username : string;
  sale_status : string
}.

Record Purchase := mkPurchase {
  purchase_id : Z;
  purchase_date : Z;
  purchase_item_type : string;
  purchase_item_name : string;
  purchase_quantity_of : Q;
  purchase_unit_price_of : Q;
  purchase_total_amount : Q;
  purchase_employee_username : string;
  purchase_status : string
}.

Record InventoryRow := mkInventoryRow {
  inv_id : Z;
  inv_date : Z;
  inv_doc_no : string;
  inv_description : string;
  inv_product_name : string;
  purchase_quantity : Q;
  purchase_unit_price : Q;
  purchase_amount : Q;
  sales_quantity : Q;
  sales_unit_price : Q;
  sales_amount : Q;
  balance_quantity : Q;
  balance_unit_price : Q;
  balance_amount : Q;
  inv_employee : string
}.

Record Store := mkStore {
  accounts : list Account;
  journal_entries : list JournalEntry;
  sales : list Sale;
  purchases : list Purchase;
  inventory_card : list InventoryRow
}.

(** The query clause [.order(column)]: a stable sort, here by insertion. *)
Section OrderBy.
Context {A : Type} (le : A -> A -> bool).

Fixpoint insert_sorted (x : A) (l : list A) : list A :=
  match l with
  | [] => [x]
  | y :: l' => if le y x then y :: insert_sorted x l' else x :: y :: l'
  end.

Definition order_by (l : list A) : list A :=
  fold_left (fun acc x => insert_sorted x acc) l [].
End OrderBy.

(** A serial primary key: one more than the largest key in the table. *)
Definition next_id {A : Type} (id : A -> Z) (rows : list A) : Z :=
  fold_left (fun m r => Z.max m (id r)) rows 0%Z + 1.

(** Optional arguments: [if end_date:] and [if journal_types:]. *)
Definition date_filter (end_date : option Z) (d : Z) : bool :=
  match end_date with
  | Some e => (d <=? e)%Z
  | None => true
  end.

Definition in_list (s : string) (l : list string) : bool :=
  existsb (String.eqb s) l.

Definition type_filter (journal_types : option (list string)) (t : string)
    : bool :=
  match journal_types with
  | Some (ty :: tys) => in_list t (ty :: tys)
  | _ => true
  end.

(** ** Account registry and balance aggregation *)

Definition get_all_accounts (db : Store) : list Account :=
  order_by (fun a b => String.leb (account_code a) (account_code b))
           (accounts db).

Definition get_ledger_balance (db : Store) (code : string)
    (end_date : option Z) (journal_types : option (list string)) : Q :=
  match find (fun acc => String.eqb (account_code acc) code)
             (get_all_accounts db) with
  | None => 0
  | Some account =>
      let balance := beginning_balance account in
      let entries :=
        filter (fun e => String.eqb (je_account_code e) code
                         && date_filter end_date (je_date e)
                         && type_filter journal_types (je_journal_type e))
               (journal_entries db) in
      let total_debit := sum (map je_debit entries) in
      let total_credit := sum (map je_credit entries) in
      if String.eqb (normal_balance account) "debit"
      then balance + (total_debit - total_credit)
      else balance + (total_credit - total_debit)
  end.

Definition registered (db : Store) (code : string) : Prop :=
  exists acc, In acc (get_all_accounts db) /\ account_code acc = code.

(** The journal lines a balance query selects. *)
Definition selected (end_date : option Z)
    (journal_types : option (list string)) (e : JournalEntry) : bool :=
  date_filter end_date (je_date e)
  && type_filter journal_types (je_journal_type e).

Record FinalBalance := mkFinalBalance {
  fb_account_code : string;
  fb_account_name : string;
  fb_normal_balance : string;
  amount : Q
}.

(** One turn of the loop [for entry in entries] of [get_final_balances]. *)
Definition add_entry (accounts_map : Dict.t Account) (balances : Dict.t Q)
    (entry : JournalEntry) : Dict.t Q :=
  let code := je_account_code entry in
  match Dict.get balances code, Dict.get accounts_map code with
  | Some current, Some acc =>
      let debit := je_debit entry in
      let credit := je_credit entry in
      if String.eqb (normal_balance acc) "debit"
      then Dict.set balances code (current + (debit - credit))
      else Dict.set balances code (current + (credit - debit))
  | _, _ => balances
  end.

Definition relevant_prefixes : list string := ["3-"; "4-"; "5-"; "6-"].

Definition get_final_balances (db : Store) (end_date : option Z)
    (journal_types : option (list string)) : list FinalBalance :=
  let accounts := get_all_accounts db in
  let accounts_map := Dict.of_list account_code (fun acc => acc) accounts in
  let balances := Dict.of_list account_code beginning_balance accounts in
  let entries := filter (selected end_date journal_types)
                        (journal_entries db) in
  let balances := fold_left (add_entry accounts_map) entries balances in
  flat_map
    (fun item : string * Q =>
       let (code, final_balance) := item in
       match Dict.get accounts_map code with
       | Some acc =>
           if Qgtb (Qabs final_balance) cent
              || startswith_any (account_code acc) relevant_prefixes
           then [mkFinalBalance code (account_name acc)
                                (normal_balance acc) final_balance]
           else []
       | None => []
       end)
    balances.

(** ** Statement builders *)

Record IncomeStatement := mkIncomeStatement {
  revenue : Q;
  expenses : Q;
  net_income : Q;
  revenue_details : list FinalBalance;
  expense_details : list FinalBalance
}.

Definition generate_income_statement (final_balances : list FinalBalance)
    : IncomeStatement :=
  let revenue_details :=
    filter (fun acc => startswith (fb_account_code acc) "4-")
           final_balances in
  let expense_details :=
    filter (fun acc => negb (startswith (fb_account_code acc) "4-")
                       && startswith_any (fb_account_code acc) ["5-"; "6-"])
           final_balances in
  let total_revenue := sum (map amount revenue_details) in
  let total_expenses := sum (map amount expense_details) in
  mkIncomeStatement total_revenue total_expenses
                    (total_revenue - total_expenses)
                    revenue_details expense_details.

Record BalanceSheet := mkBalanceSheet {
  assets : Q;
  liabilities : Q;
  equity : Q;
  asset_details : list FinalBalance;
  liability_details : list FinalBalance;
  initial_equity_val : Q;
  drawings_val : Q
}.

Definition drawings_code : string := "3-1100".

Definition generate_balance_sheet (final_balances : list FinalBalance)
    (net_income : Q) : BalanceSheet :=
  let asset_details :=
    filter (fun acc => startswith (fb_account_code acc) "1-")
           final_balances in
  let liability_details :=
    filter (fun acc => startswith (fb_account_code acc) "2-")
           final_balances in
  let initial_equity_items :=
    filter (fun acc => startswith (fb_account_code acc) "3-"
                       && negb (String.eqb (fb_account_code acc)
                                           drawings_code))
           final_balances in
  let drawing_items :=
    filter (fun acc => String.eqb (fb_account_code acc) drawings_code)
           final_balances in
  let total_assets :=
    fold_left
      (fun total item =>
         if String.eqb (fb_normal_balance item) "debit"
         then total + amount item
         else if String.eqb (fb_normal_balance item) "credit"
         then total - amount item
         else total)
      asset_details 0 in
  let total_liabilities := sum (map amount liability_details) in
  let initial_equity_val := sum (map amount initial_equity_items) in
  let drawings_val := sum (map amount drawing_items) in
  let final_equity := initial_equity_val + net_income - drawings_val in
  mkBalanceSheet total_assets total_liabilities final_equity
                 asset_details liability_details
                 initial_equity_val drawings_val.

Record EquityStatement := mkEquityStatement {
  initial_equity : Q;
  es_net_income : Q;
  drawings : Q;
  final_equity : Q
}.

Record FinancialReports := mkFinancialReports {
  income_statement : IncomeStatement;
  equity_statement : EquityStatement;
  balance_sheet : BalanceSheet
}.

Definition report_types : option (list string) := Some ["GJ"; "AJ"].

Definition generate_financial_reports (db : Store) (end_date : Z)
    : FinancialReports :=
  let final_balances_for_reports :=
    get_final_balances db (Some end_date) report_types in
  let income_statement :=
    generate_income_statement final_balances_for_reports in
  let net_income := net_income income_statement in
  let balance_sheet :=
    generate_balance_sheet final_balances_for_reports net_income in
  mkFinancialReports
    income_statement
    (mkEquityStatement (initial_equity_val balance_sheet) net_income
                       (drawings_val balance_sheet) (equity balance_sheet))
    balance_sheet.


(** ** Cash-flow classifier *)

(** Python's [a or b] on strings: the empty string is falsy. *)
Definition str_or (a b : string) : string :=
  match a with EmptyString => b | _ => a end.

Definition str_of_Z (z : Z) : string := NilZero.string_of_int (Z.to_int z).

Definition trans_id_of (entry : JournalEntry) : string :=
  str_or (je_transaction_id entry)
         (str_or (je_ref_code entry) ("unique_" ++ str_of_Z (je_id entry))).

(** [transactions[trans_id].append(entry)], creating the list first. *)
Definition group_entry (transactions : Dict.t (list JournalEntry))
    (entry : JournalEntry) : Dict.t (list JournalEntry) :=
  let trans_id := trans_id_of entry in
  let transactions :=
    if Dict.mem transactions trans_id then transactions
    else Dict.set transactions trans_id [] in
  Dict.set transactions trans_id
           (Dict.get_default transactions trans_id [] ++ [entry])%list.

Definition CASH_ACCOUNT_CODE : string := "1-1000".

Record AggItem := mkAggItem {
  item_description : string;
  item_amount : Q
}.

Definition aggregate (agg_dict : Dict.t AggItem) (code name : string)
    (amount_val : Q) : Dict.t AggItem :=
  let agg_dict :=
    if Dict.mem agg_dict code then agg_dict
    else Dict.set agg_dict code (mkAggItem name 0) in
  match Dict.get agg_dict code with
  | Some it =>
      Dict.set agg_dict code
               (mkAggItem (item_description it) (item_amount it + amount_val))
  | None => agg_dict
  end.

Record CashFlowAgg := mkCashFlowAgg {
  op_inflows_agg : Dict.t AggItem;
  op_outflows_agg : Dict.t AggItem;
  inv_inflows_agg : Dict.t AggItem;
  inv_outflows_agg : Dict.t AggItem;
  fin_inflows_agg : Dict.t AggItem;
  fin_outflows_agg : Dict.t AggItem
}.

Definition empty_agg : CashFlowAgg := mkCashFlowAgg [] [] [] [] [] [].

Definition movement (e : JournalEntry) : Q := je_debit e - je_credit e.

(** The [if]/[elif] chain that files a matched pair under a bucket. *)
Definition classify (st : CashFlowAgg) (accounts_map : Dict.t string)
    (cash_movement : Q) (counterpart_entry : JournalEntry) : CashFlowAgg :=
  let counterpart_code := je_account_code counterpart_entry in
  let counterpart_name :=
    Dict.get_default accounts_map counterpart_code
      ("Akun Tdk Dikenal (" ++ counterpart_code ++ ")") in
  let amount := Qabs cash_movement in
  let 'mkCashFlowAgg op_in op_out inv_in inv_out fin_in fin_out := st in
  if startswith counterpart_code "4-" then
    mkCashFlowAgg (aggregate op_in counterpart_code counterpart_name amount)
                  op_out inv_in inv_out fin_in fin_out
  else if startswith_any counterpart_code ["5-"; "6-"]
          || (startswith counterpart_code "1-1"
              && negb (String.eqb counterpart_code CASH_ACCOUNT_CODE))
          || startswith counterpart_code "2-1" then
    mkCashFlowAgg op_in
                  (aggregate op_out counterpart_code counterpart_name amount)
                  inv_in inv_out fin_in fin_out
  else if startswith counterpart_code "1-2" then
    if Qgtb cash_movement 0 then
      mkCashFlowAgg op_in op_out
                    (aggregate inv_in counterpart_code counterpart_name amount)
                    inv_out fin_in fin_out
    else
      mkCashFlowAgg op_in op_out inv_in
                    (aggregate inv_out counterpart_code counterpart_name amount)
                    fin_in fin_out
  else if startswith_any counterpart_code ["2-2"; "3-"] then
    if String.eqb counterpart_code "3-1100" then
      mkCashFlowAgg op_in op_out inv_in inv_out fin_in
                    (aggregate fin_out counterpart_code
                               "Penarikan oleh Pemilik (Prive)" amount)
    else if Qgtb cash_movement 0 then
      mkCashFlowAgg op_in op_out inv_in inv_out
                    (aggregate fin_in counterpart_code counterpart_name amount)
                    fin_out
    else
      mkCashFlowAgg op_in op_out inv_in inv_out fin_in
                    (aggregate fin_out counterpart_code counterpart_name amount)
  else st.

(** [for counterpart_entry in other_entries: ... break]: the first
    counterpart whose movement offsets the cash movement is classified and
    the loop stops. *)
Fixpoint pair_cash_entry (st : CashFlowAgg) (accounts_map : Dict.t string)
    (cash_movement : Q) (other_entries : list JournalEntry) : CashFlowAgg :=
  match other_entries with
  | [] => st
  | counterpart_entry :: rest =>
      let counterpart_movement := movement counterpart_entry in
      if Qltb (Qabs (cash_movement + counterpart_movement)) cent
      then classify st accounts_map cash_movement counterpart_entry
      else pair_cash_entry st accounts_map cash_movement rest
  end.

Definition is_cash (e : JournalEntry) : bool :=
  String.eqb (je_account_code e) CASH_ACCOUNT_CODE.

Definition process_cash_entry (accounts_map : Dict.t string)
    (other_entries : list JournalEntry) (st : CashFlowAgg)
    (cash_entry : JournalEntry) : CashFlowAgg :=
  let cash_movement := movement cash_entry in
  if Qltb (Qabs cash_movement) cent then st
  else pair_cash_entry st accounts_map cash_movement other_entries.

Definition is_nil {A : Type} (l : list A) : bool :=
  match l with [] => true | _ => false end.

Definition process_transaction (accounts_map : Dict.t string)
    (st : CashFlowAgg) (entries : list JournalEntry) : CashFlowAgg :=
  let cash_entries := filter is_cash entries in
  let other_entries := filter (fun e => negb (is_cash e)) entries in
  if is_nil cash_entries || is_nil other_entries then st
  else fold_left (process_cash_entry accounts_map other_entries)
                 cash_entries st.

Record Activity := mkActivity {
  inflows : list AggItem;
  total_inflow : Q;
  outflows : list AggItem;
  total_outflow : Q;
  net : Q
}.

Record CashFlowStatement := mkCashFlowStatement {
  operating : Activity;
  investing : Activity;
  financing : Activity;
  net_change : Q;
  beginning_cash : Q;
  ending_cash : Q
}.

Definition activity (inflows_agg outflows_agg : Dict.t AggItem) : Activity :=
  let inflows := Dict.values inflows_agg in
  let outflows := Dict.values outflows_agg in
  let total_in := sum (map item_amount inflows) in
  let total_out := sum (map item_amount outflows) in
  mkActivity inflows total_in outflows total_out (total_in - total_out).

Definition entries_in_period (db : Store) (start_date end_date : Z)
    : list JournalEntry :=
  order_by (fun a b => (je_date a <=? je_date b)%Z)
    (filter (fun e => (start_date <=? je_date e)%Z
                      && (je_date e <=? end_date)%Z)
            (journal_entries db)).

Definition transactions_in_period (db : Store) (start_date end_date : Z)
    : Dict.t (list JournalEntry) :=
  fold_left group_entry (entries_in_period db start_date end_date) [].

Definition generate_cash_flow_statement (db : Store)
    (start_date end_date : Z) : CashFlowStatement :=
  let all_accounts := get_all_accounts db in
  let accounts_map := Dict.of_list account_code account_name all_accounts in
  let transactions := transactions_in_period db start_date end_date in
  let st := fold_left (process_transaction accounts_map)
                      (Dict.values transactions) empty_agg in
  let day_before_start := (start_date - 1)%Z in
  let beginning_cash :=
    get_ledger_balance db CASH_ACCOUNT_CODE (Some day_before_start) None in
  let operating := activity (op_inflows_agg st) (op_outflows_agg st) in
  let investing := activity (inv_inflows_agg st) (inv_outflows_agg st) in
  let financing := activity (fin_inflows_agg st) (fin_outflows_agg st) in
  let net_change := net operating + net investing + net financing in
  let ending_cash := beginning_cash + net_change in
  mkCashFlowStatement operating investing financing
                      net_change beginning_cash ending_cash.

(** ** Journal posting *)

Definition insert_journal_entry (db : Store) (date : Z)
    (code name description : string) (debit credit : Q)
    (journal_type ref_code : string) : Store :=
  let row := mkJournalEntry (next_id je_id (journal_entries db)) date code
                            name description debit credit journal_type
                            ref_code "" in
  mkStore (accounts db) (journal_entries db ++ [row])%list (sales db)
          (purchases db) (inventory_card db).

Definition create_journal_entry (db : Store) (date : Z)
    (account_code account_name description : string) (debit credit : Q)
    (journal_type ref_code : string) : Store :=
  insert_journal_entry db date account_code account_name description
                       debit credit journal_type ref_code.


(** What the posting routes flash back to the user. *)
Inductive Flash :=
| AccountNotChosen   (* 'Akun Debit dan Kredit harus dipilih!' *)
| AmountNotPositive  (* 'Jumlah Debit dan Kredit harus lebih dari 0!' *)
| UnbalancedEntry    (* 'Jurnal tidak balance!' *)
| Saved.             (* 'Jurnal berhasil disimpan!' *)

Definition find_account (accounts : list Account) (code : string)
    : option Account :=
  find (fun a => String.eqb (account_code a) code) accounts.

Definition akuntan_journal_gj (db : Store) (date : Z) (ref_code : string)
    (debit_account debit_description : string) (debit_amount : Q)
    (credit_account credit_description : string) (credit_amount : Q)
    : Store * Flash :=
  if String.eqb debit_account "" || String.eqb credit_account "" then
    (db, AccountNotChosen)
  else if Qle_bool debit_amount 0 || Qle_bool credit_amount 0 then
    (db, AmountNotPositive)
  else if Qgtb (Qabs (debit_amount - credit_amount)) cent then
    (db, UnbalancedEntry)
  else
    let accounts := get_all_accounts db in
    let db :=
      match find_account accounts debit_account with
      | Some debit_acc =>
          create_journal_entry db date (account_code debit_acc)
                               (account_name debit_acc) debit_description
                               debit_amount 0 "GJ" ref_code
      | None => db
      end in
    let db :=
      match find_account accounts credit_account with
      | Some credit_acc =>
          create_journal_entry db date (account_code credit_acc)
                               (account_name credit_acc) credit_description
                               0 credit_amount "GJ" ref_code
      | None => db
      end in
    (db, Saved).





(** ** Inventory costing ledger *)

Definition get_last_inventory_entry (db : Store) (product_name : string)
    : option InventoryRow :=
  hd_error
    (order_by (fun a b => (inv_id b <=? inv_id a)%Z)
       (filter (fun r => String.eqb (inv_product_name r) product_name)
               (inventory_card db))).

(** [f"{n:03d}"] *)
Definition pad3 (n : Z) : string :=
  let s := str_of_Z n in
  match String.length s with
  | 0%nat => "000" ++ s
  | 1%nat => "00" ++ s
  | 2%nat => "0" ++ s
  | _ => s
  end.

Definition account_mapping (item_type : string)
    : option ((string * string) * (string * string)) :=
  if String.eqb item_type "bibit" then
    Some (("1-1200", "Persediaan Ikan Mujair"), ("1-1000", "Kas"))
  else if String.eqb item_type "perlengkapan" then
    Some (("1-1300", "Perlengkapan"), ("1-1000", "Kas"))
  else if String.eqb item_type "peralatan" then
    Some (("1-2200", "Peralatan"), ("1-1000", "Kas"))
  else None.

Definition insert_inventory_row (db : Store) (mk : Z -> InventoryRow)
    : Store :=
  mkStore (accounts db) (journal_entries db) (sales db) (purchases db)
          (inventory_card db ++ [mk (next_id inv_id (inventory_card db))])%list.

(** [stamp] is the rendering of [datetime.now()] inside the reference code. *)
Definition process_purchase (db : Store) (stamp : string) (date : Z)
    (item_type item_name : string) (quantity unit_price total_amount : Q)
    (employee_username description ref_code_prefix : string)
    : Store * bool :=
  let purchase_id := next_id purchase_id (purchases db) in
  let db :=
    mkStore (accounts db) (journal_entries db) (sales db)
            (purchases db
             ++ [mkPurchase purchase_id date item_type item_name quantity
                            unit_price total_amount employee_username
                            "approved"])%list
            (inventory_card db) in
  let ref_code := ref_code_prefix ++ stamp ++ pad3 purchase_id in
  let final_desc := str_or description ("Pembelian " ++ item_name) in
  match account_mapping item_type with
  | None => (db, false)
  | Some (debit_side, credit_side) =>
      let db :=
        insert_journal_entry db date (fst debit_side) (snd debit_side)
                             final_desc total_amount 0 "GJ" ref_code in
      let db :=
        insert_journal_entry db date (fst credit_side) (snd credit_side)
                             final_desc 0 total_amount "GJ" ref_code in
      if String.eqb item_type "bibit" then
        let '(last_qty, last_balance_amount) :=
          match get_last_inventory_entry db item_name with
          | Some last_data =>
              (balance_quantity last_data, balance_amount last_data)
          | None => (0, 0)
          end in
        let new_balance_qty := last_qty + quantity in
        let new_balance_amount := last_balance_amount + total_amount in
        let new_avg_price :=
          if Qgtb new_balance_qty 0
          then new_balance_amount / new_balance_qty else 0 in
        (insert_inventory_row db
           (fun id => mkInventoryRow id date ref_code final_desc item_name
                        quantity unit_price total_amount 0 0 0
                        new_balance_qty new_avg_price new_balance_amount
                        employee_username),
         true)
      else (db, true)
  end.

Inductive SaleResult :=
| SaleDone                (* [return True] *)
| InsufficientStock.      (* [raise Exception("Stok tidak mencukupi ...")] *)

Definition process_sale (db : Store) (stamp : string) (date : Z)
    (item_name : string) (quantity unit_price total_amount : Q)
    (employee_username description ref_code_prefix : string)
    : Store * SaleResult :=
  let sale_id := next_id sale_id (sales db) in
  let db :=
    mkStore (accounts db) (journal_entries db)
            (sales db
             ++ [mkSale sale_id date item_name quantity unit_price
                        total_amount employee_username "completed"])%list
            (purchases db) (inventory_card db) in
  let ref_code := ref_code_prefix ++ stamp ++ pad3 sale_id in
  let final_desc := str_or description ("Penjualan " ++ item_name) in
  match get_last_inventory_entry db item_name with
  | None => (db, InsufficientStock)
  | Some last_entry =>
      if Qltb (balance_quantity last_entry) quantity then
        (db, InsufficientStock)
      else
        let hpp_unit_price := balance_unit_price last_entry in
        let hpp_total_amount := quantity * hpp_unit_price in
        let last_qty := balance_quantity last_entry in
        let last_balance_amount := balance_amount last_entry in
        let hpp_desc := "HPP untuk " ++ ref_code in
        let db :=
          insert_journal_entry db date "1-1000" "Kas" final_desc
                               total_amount 0 "GJ" ref_code in
        let db :=
          insert_journal_entry db date "4-1000" "Pendapatan Penjualan"
                               final_desc 0 total_amount "GJ" ref_code in
        let db :=
          insert_journal_entry db date "5-1000" "Beban Pokok Penjualan"
                               hpp_desc hpp_total_amount 0 "GJ" ref_code in
        let db :=
          insert_journal_entry db date "1-1200" "Persediaan Ikan Mujair"
                               hpp_desc 0 hpp_total_amount "GJ" ref_code in
        let new_balance_qty := last_qty - quantity in
        let new_balance_amount := last_balance_amount - hpp_total_amount in
        let new_avg_price :=
          if Qgtb new_balance_qty 0
          then new_balance_amount / new_balance_qty else 0 in
        (insert_inventory_row db
           (fun id => mkInventoryRow id date ref_code final_desc item_name
                        0 0 0 quantity hpp_unit_price hpp_total_amount
                        new_balance_qty new_avg_price new_balance_amount
                        employee_username),
         SaleDone)
  end.

(** The patch [{'balance_quantity': ..., 'balance_amount': ...,
    'balance_unit_price': ...}] applied to one row. *)
Definition set_balances (r : InventoryRow) (qty amt avg : Q) : InventoryRow :=
  mkInventoryRow (inv_id r) (inv_date r) (inv_doc_no r) (inv_description r)
    (inv_product_name r) (purchase_quantity r) (purchase_unit_price r)
    (purchase_amount r) (sales_quantity r) (sales_unit_price r)
    (sales_amount r) qty avg amt (inv_employee r).

(** [update(patch).eq('id', id)]: every row with that key is patched. *)
Definition update_balances (id : Z) (qty amt avg : Q)
    (rows : list InventoryRow) : list InventoryRow :=
  map (fun r => if (inv_id r =? id)%Z then set_balances r qty amt avg else r)
      rows.

Definition by_date_then_id (a b : InventoryRow) : bool :=
  (inv_date a <? inv_date b)%Z
  || ((inv_date a =? inv_date b)%Z && (inv_id a <=? inv_id b)%Z).

(** The loop of [recalculate_inventory_balances]: the running quantity and
    amount are threaded through the rows, each row is written back. *)
Fixpoint recalculate_loop (entries : list InventoryRow)
    (balance_qty balance_amount : Q) (table : list InventoryRow)
    : list InventoryRow :=
  match entries with
  | [] => table
  | entry :: rest =>
      let balance_qty :=
        balance_qty + purchase_quantity entry - sales_quantity entry in
      let balance_amount :=
        balance_amount + purchase_amount entry - sales_amount entry in
      let avg_price :=
        if Qgtb balance_qty 0 then balance_amount / balance_qty else 0 in
      recalculate_loop rest balance_qty balance_amount
        (update_balances (inv_id entry) balance_qty balance_amount avg_price
                         table)
  end.

Definition recalculate_inventory_balances (db : Store) : Store * bool :=
  let entries := order_by by_date_then_id (inventory_card db) in
  (mkStore (accounts db) (journal_entries db) (sales db) (purchases db)
           (recalculate_loop entries 0 0 (inventory_card db)),
   true).

(** ** Ten-column worksheet *)

Definition get_journal_entries (db : Store) (journal_type : option string)
    (start_date end_date : option Z) : list JournalEntry :=
  order_by (fun a b => (je_date a <=? je_date b)%Z)
    (filter
       (fun e =>
          match journal_type with
          | Some EmptyString | None => true
          | Some jt => String.eqb (je_journal_type e) jt
          end
          && match start_date with
             | Some s => (s <=? je_date e)%Z
             | None => true
             end
          && date_filter end_date (je_date e))
       (journal_entries db)).

Record WorksheetRow := mkWorksheetRow {
  ws_code : string;
  ws_name : string;
  ws_normal_balance : string;
  ns_debet : Q;
  ns_kredit : Q;
  adj_debet : Q;
  adj_kredit : Q;
  nsa_debet : Q;
  nsa_kredit : Q;
  lr_debet : Q;
  lr_kredit : Q;
  neraca_debet : Q;
  neraca_kredit : Q
}.

(** Splitting a signed balance over the debit and credit columns. *)
Definition split_columns (normal_balance : string) (balance : Q) : Q * Q :=
  if String.eqb normal_balance "debit" then
    (if Qgtb balance 0 then balance else 0,
     if Qltb balance 0 then Qabs balance else 0)
  else
    (if Qltb balance 0 then Qabs balance else 0,
     if Qgtb balance 0 then balance else 0).

Definition worksheet_row (ns_map nsa_map adj_debit_map adj_kredit_map
                          : Dict.t Q) (account : Account)
    : list WorksheetRow :=
  let code := account_code account in
  let name := account_name account in
  let normal_balance := normal_balance account in
  let balance_ns := Dict.get_default ns_map code 0 in
  let '(ns_debet, ns_kredit) := split_columns normal_balance balance_ns in
  let adj_debet := Dict.get_default adj_debit_map code 0 in
  let adj_kredit := Dict.get_default adj_kredit_map code 0 in
  let balance_nsa := Dict.get_default nsa_map code 0 in
  let '(nsa_debet, nsa_kredit) := split_columns normal_balance balance_nsa in
  let '(lr_debet, lr_kredit, neraca_debet, neraca_kredit) :=
    if startswith_any code ["4-"; "5-"; "6-"]
    then (nsa_debet, nsa_kredit, 0, 0)
    else (0, 0, nsa_debet, nsa_kredit) in
  if Qgtb (Qabs balance_nsa) cent || Qgtb adj_debet 0 || Qgtb adj_kredit 0
     || Qgtb (Qabs balance_ns) cent
  then [mkWorksheetRow code name normal_balance ns_debet ns_kredit
                       adj_debet adj_kredit nsa_debet nsa_kredit
                       lr_debet lr_kredit neraca_debet neraca_kredit]
  else [].

Definition worksheet_data (db : Store) (end_date : Z) : list WorksheetRow :=
  let ns_balances := get_final_balances db (Some end_date) (Some ["GJ"]) in
  let ns_map := Dict.of_list fb_account_code amount ns_balances in
  let adjustment_journals :=
    get_journal_entries db (Some "AJ") None (Some end_date) in
  let adj_debit_map :=
    fold_left (fun m entry =>
                 let code := je_account_code entry in
                 Dict.set m code (Dict.get_default m code 0 + je_debit entry))
              adjustment_journals [] in
  let adj_kredit_map :=
    fold_left (fun m entry =>
                 let code := je_account_code entry in
                 Dict.set m code (Dict.get_default m code 0 + je_credit entry))
              adjustment_journals [] in
  let nsa_balances :=
    get_final_balances db (Some end_date) (Some ["GJ"; "AJ"]) in
  let nsa_map := Dict.of_list fb_account_code amount nsa_balances in
  flat_map (worksheet_row ns_map nsa_map adj_debit_map adj_kredit_map)
           (get_all_accounts db).

(** The totals of the worksheet and its closing rows.  The net-income row
    and the row TOTAL AKHIR are rendered when [net_income != 0]; the four
    [final_*] fields are the amounts that row shows under the
    income-statement and balance-sheet columns. *)
Record Worksheet := mkWorksheet {
  ws_rows : list WorksheetRow;
  total_ns_debet : Q;
  total_ns_kredit : Q;
  total_adj_debet : Q;
  total_adj_kredit : Q;
  total_nsa_debet : Q;
  total_nsa_kredit : Q;
  total_lr_debet : Q;
  total_lr_kredit : Q;
  total_neraca_debet : Q;
  total_neraca_kredit : Q;
  ws_net_income : Q;
  final_row_shown : bool;
  final_lr_debet : Q;
  final_lr_kredit : Q;
  final_neraca_debet : Q;
  final_neraca_kredit : Q
}.

Definition akuntan_worksheet (db : Store) (end_date : Z) : Worksheet :=
  let worksheet_data := worksheet_data db end_date in
  let total column := sum (map column worksheet_data) in
  let total_lr_debet := total lr_debet in
  let total_lr_kredit := total lr_kredit in
  let total_neraca_debet := total neraca_debet in
  let total_neraca_kredit := total neraca_kredit in
  let net_income := total_lr_kredit - total_lr_debet in
  let profit := Qle_bool 0 net_income in
  let loss := Qltb net_income 0 in
  mkWorksheet worksheet_data
    (total ns_debet) (total ns_kredit) (total adj_debet) (total adj_kredit)
    (total nsa_debet) (total nsa_kredit)
    total_lr_debet total_lr_kredit total_neraca_debet total_neraca_kredit
    net_income
    (negb (Qeq_bool net_income 0))
    (total_lr_debet + (if profit then net_income else 0))
    (total_lr_kredit + (if loss then Qabs net_income else 0))
    (total_neraca_debet + (if loss then Qabs net_income else 0))
    (total_neraca_kredit + (if profit then net_income else 0)).

(** ** Statement-side definitions *)

(** The running-balance recurrence of an inventory-card row against the
    balances [(prior_qty, prior_amount)] that precede it. *)
Definition running_balance (prior_qty prior_amount : Q) (row : InventoryRow)
    : Prop :=
  balance_quantity row
    == prior_qty + purchase_quantity row - sales_quantity row
  /\ balance_amount row
    == prior_amount + purchase_amount row - sales_amount row
  /\ (0 < balance_quantity row ->
      balance_unit_price row == balance_amount row / balance_quantity row)
  /\ (~ 0 < balance_quantity row -> balance_unit_price row == 0).

(** The balances of the prior row of a product: those of its last row, or
    zero when the product has no row yet. *)
Definition prior_balances (db : Store) (product_name : string) : Q * Q :=
  match get_last_inventory_entry db product_name with
  | Some last => (balance_quantity last, balance_amount last)
  | None => (0, 0)
  end.

(** What the recalculation loop over [entries] does to a single row. *)
Fixpoint row_after (entries : list InventoryRow) (balance_qty balance_amount : Q)
    (r : InventoryRow) : InventoryRow :=
  match entries with
  | [] => r
  | entry :: rest =>
      let balance_qty :=
        balance_qty + purchase_quantity entry - sales_quantity entry in
      let balance_amount :=
        balance_amount + purchase_amount entry - sales_amount entry in
      let avg_price :=
        if Qgtb balance_qty 0 then balance_amount / balance_qty else 0 in
      row_after rest balance_qty balance_amount
        (if (inv_id r =? inv_id entry)%Z
         then set_balances r balance_qty balance_amount avg_price else r)
  end.

(** A row without its balance fields. *)
Definition movement_of (r : InventoryRow) : InventoryRow :=
  set_balances r 0 0 0.

(** What a posted journal line records of its posting. *)
Definition posted (e : JournalEntry)
    : string * string * Q * Q * string * string * Z :=
  (je_account_code e, je_description e, je_debit e, je_credit e,
   je_journal_type e, je_ref_code e, je_date e).



(** ** Example data *)

(** The chart of accounts of [init_default_accounts]. *)
Definition default_accounts : list Account :=
  [ mkAccount "1-1000" "Kas" "aset" "debit" 0;
    mkAccount "1-1400" "Piutang Usaha" "aset" "debit" 0;
    mkAccount "1-1200" "Persediaan Ikan Mujair" "aset" "debit" 0;
    mkAccount "1-1300" "Perlengkapan" "aset" "debit" 0;
    mkAccount "1-2200" "Peralatan" "aset" "debit" 0;
    mkAccount "1-2210" "Akumulasi Penyusutan Peralatan" "aset" "credit" 0;
    mkAccount "2-1000" "Utang Usaha" "kewajiban" "credit" 0;
    mkAccount "2-2000" "Utang Bank" "kewajiban" "credit" 0;
    mkAccount "3-1000" "Modal" "ekuitas" "credit" 0;
    mkAccount "3-1100" "Prive" "ekuitas" "debit" 0;
    mkAccount "3-1200" "Ikhtisar Laba Rugi" "ekuitas" "credit" 0;
    mkAccount "4-1000" "Penjualan" "pendapatan" "credit" 0;
    mkAccount "4-1201" "Pendapatan Lain-lain" "pendapatan" "credit" 0;
    mkAccount "5-1000" "Harga Pokok Penjualan" "beban" "debit" 0;
    mkAccount "6-1300" "Beban Gaji" "beban" "debit" 0;
    mkAccount "6-1000" "Beban Telepon, Air, Listrik" "beban" "debit" 0;
    mkAccount "6-1100" "Beban Perlengkapan" "beban" "debit" 0;
    mkAccount "6-1400" "Beban Penyusutan Peralatan" "beban" "debit" 0;
    mkAccount "6-1500" "Beban Perawatan Kolam" "beban" "debit" 0;
    mkAccount "6-1501" "Beban Lain-lain" "beban" "debit" 0 ].

Definition fresh_store : Store := mkStore default_accounts [] [] [] [].

(** Ten kilograms bought at 1000, then four kilograms sold: six kilograms
    worth 6000 are left in stock. *)
Definition stocked_store : Store :=
  let db := fst (process_purchase fresh_store "0311" 1 "bibit" "Ikan Mujair"
                   10 1000 10000 "karyawan" "" "BL") in
  fst (process_sale db "2026-11-03T10:00:00" 2 "Ikan Mujair" 4 2000 8000
         "kasir" "" "JL").

(** Two sales of one cent each, one for cash and one on credit: every
    reference code balances exactly, and the two asset balances are too
    small to be listed. *)
Definition cents_store : Store :=
  mkStore
    [ mkAccount "1-1000" "Kas" "aset" "debit" 0;
      mkAccount "1-1400" "Piutang Usaha" "aset" "debit" 0;
      mkAccount "3-1000" "Modal" "ekuitas" "credit" 0;
      mkAccount "4-1000" "Penjualan" "pendapatan" "credit" 0 ]
    [ mkJournalEntry 1 1 "1-1000" "Kas" "Tunai" cent 0 "GJ" "GJ-1" "";
      mkJournalEntry 2 1 "4-1000" "Penjualan" "Tunai" 0 cent "GJ" "GJ-1" "";
      mkJournalEntry 3 1 "1-1400" "Piutang Usaha" "Kredit" cent 0 "GJ"
                     "GJ-2" "";
      mkJournalEntry 4 1 "4-1000" "Penjualan" "Kredit" 0 cent "GJ"
                     "GJ-2" "" ]
    [] [] [].

(** A cash sale and a purchase of equipment, both balanced. *)
Definition trading_store : Store :=
  mkStore
    [ mkAccount "1-1000" "Kas" "aset" "debit" 500;
      mkAccount "1-2200" "Peralatan" "aset" "debit" 0;
      mkAccount "3-1000" "Modal" "ekuitas" "credit" 500;
      mkAccount "4-1000" "Penjualan" "pendapatan" "credit" 0 ]
    [ mkJournalEntry 1 1 "1-1000" "Kas" "Penjualan" 300 0 "GJ" "GJ-1" "";
      mkJournalEntry 2 1 "4-1000" "Penjualan" "Penjualan" 0 300 "GJ"
                     "GJ-1" "";
      mkJournalEntry 3 2 "1-2200" "Peralatan" "Jaring" 200 0 "GJ"
                     "GJ-2" "";
      mkJournalEntry 4 2 "1-1000" "Kas" "Jaring" 0 200 "GJ" "GJ-2" "" ]
    [] [] [].


(** ** Sums and per-account folds used in the statements *)

(** The sum of [f] over a list. *)
Fixpoint total {A : Type} (f : A -> Q) (l : list A) : Q :=
  match l with
  | [] => 0
  | x :: l' => f x + total f l'
  end.





(** Account codes are unique in the registry. *)
Definition unique_codes (db : Store) : Prop :=
  NoDup (map account_code (get_all_accounts db)).

(** ** Double-entry hypotheses of the statements *)

(** A balance read as a debit balance: itself for a debit-normal account,
    its opposite otherwise. *)
Definition debit_signed (normal_balance : string) (x : Q) : Q :=
  if String.eqb normal_balance "debit" then x else - x.












(** ** Reconciliation of the cash-flow statement *)
















(** ** Statement-side definitions of the further properties *)

(** The rows, in the order given, satisfy the running-balance recurrence
    one after the other, starting from the given balances. *)
Fixpoint chained (prior_qty prior_amount : Q) (rows : list InventoryRow)
    : Prop :=
  match rows with
  | [] => True
  | row :: rest =>
      running_balance prior_qty prior_amount row
      /\ chained (balance_quantity row) (balance_amount row) rest
  end.

(** The inventory card in the order of the recalculation. *)
Definition chronological (rows : list InventoryRow) : list InventoryRow :=
  order_by by_date_then_id rows.

(** Every item of a bucket carries at least one cent. *)
Definition bucket_ok (agg_dict : Dict.t AggItem) : Prop :=
  Forall (fun kv => cent <= item_amount (snd kv)) agg_dict.

Definition buckets_ok (st : CashFlowAgg) : Prop :=
  bucket_ok (op_inflows_agg st) /\ bucket_ok (op_outflows_agg st)
  /\ bucket_ok (inv_inflows_agg st) /\ bucket_ok (inv_outflows_agg st)
  /\ bucket_ok (fin_inflows_agg st) /\ bucket_ok (fin_outflows_agg st).

(** The items a cash-flow statement lists, over its six buckets. *)
Definition listed_items (s : CashFlowStatement) : list AggItem :=
  (inflows (operating s) ++ outflows (operating s)
   ++ inflows (investing s) ++ outflows (investing s)
   ++ inflows (financing s) ++ outflows (financing s))%list.

(** ** Trial balance before adjustment *)

Record TrialBalanceRow := mkTrialBalanceRow {
  tb_account_code : string;
  tb_account_name : string;
  tb_debit : Q;
  tb_credit : Q
}.

(** The literal [0.001] of [get_trial_balance]. *)
Definition milli : Q := 1 # 1000.

Definition get_trial_balance (db : Store) (date : option Z)
    : list TrialBalanceRow :=
  flat_map
    (fun account =>
       let balance :=
         get_ledger_balance db (account_code account) date (Some ["GJ"]) in
       if Qgtb (Qabs balance) milli
          || negb (Qeq_bool (beginning_balance account) 0)
       then
         let '(debit_val, credit_val) :=
           if String.eqb (normal_balance account) "debit" then
             (if Qgtb balance 0 then balance else 0,
              if Qltb balance 0 then Qabs balance else 0)
           else
             (if Qltb balance 0 then Qabs balance else 0,
              if Qgtb balance 0 then balance else 0) in
         [mkTrialBalanceRow (account_code account) (account_name account)
                            debit_val credit_val]
       else [])
    (get_all_accounts db).


(** ** Depreciation of fixed assets *)

Record Asset := mkAsset {
  cost : Q;
  salvage_value : Q;
  useful_life : Z;
  depreciation_method : string
}.

(** Python's [/]: a zero divisor raises [ZeroDivisionError], rendered as
    [None]. *)
Definition py_div (x y : Q) : option Q :=
  if Qeq_bool y 0 then None else Some (x / y).

(** Python's [max(0, x)]. *)
Definition max0 (x : Q) : Q := if Qltb 0 x then x else 0.

(** One turn of the declining-balance loop: the depreciation of the
    period and the book value it leaves. *)
Definition declining_step (rate salvage book_value : Q) : Q * Q :=
  let depreciation := book_value * rate in
  let depreciation :=
    if Qltb (book_value - depreciation) salvage
    then max0 (book_value - salvage)
    else depreciation in
  (depreciation, book_value - depreciation).

(** The loop [for i in range(1, period + 1)] with [remaining] turns to
    go.  It returns in the turn [i == period]; an empty range falls
    through to the closing [return 0]. *)
Fixpoint declining_loop (rate salvage : Q) (remaining : nat)
    (book_value : Q) : Q :=
  match remaining with
  | O => 0
  | S remaining' =>
      let '(depreciation, book_value') :=
        declining_step rate salvage book_value in
      match remaining' with
      | O => max0 depreciation
      | S _ => declining_loop rate salvage remaining' book_value'
      end
  end.

Definition calculate_depreciation (asset : Asset) (period : Z)
    (period_type : string) : option Q :=
  let cost := cost asset in
  let salvage := salvage_value asset in
  let useful_life := useful_life asset in
  let method := depreciation_method asset in
  if String.eqb method "straight_line" then
    match py_div (cost - salvage) (inject_Z useful_life) with
    | None => None
    | Some annual_depreciation =>
        if String.eqb period_type "monthly"
        then Some (annual_depreciation / 12)
        else Some annual_depreciation
    end
  else if String.eqb method "declining_balance" then
    match py_div 2 (inject_Z useful_life) with
    | None => None
    | Some rate =>
        if String.eqb period_type "monthly"
        then Some (declining_loop (rate / 12) salvage (Z.to_nat period) cost)
        else Some (declining_loop rate salvage (Z.to_nat period) cost)
    end
  else if String.eqb method "sum_of_years" then
    let sum_of_years := inject_Z (useful_life * (useful_life + 1)) / 2 in
    let depreciable_amount := cost - salvage in
    if String.eqb period_type "monthly" then
      let year := ((period - 1) / 12 + 1)%Z in
      if (year <=? useful_life)%Z then
        let remaining_life := (useful_life - year + 1)%Z in
        match py_div (inject_Z remaining_life) sum_of_years with
        | None => None
        | Some share => Some (share * depreciable_amount / 12)
        end
      else Some 0
    else
      if (period <=? useful_life)%Z then
        let remaining_life := (useful_life - period + 1)%Z in
        match py_div (inject_Z remaining_life) sum_of_years with
        | None => None
        | Some share => Some (share * depreciable_amount)
        end
      else Some 0
  else Some 0.

(** The amounts of the periods [1 .. periods], one call each. *)
Definition depreciation_schedule (asset : Asset) (period_type : string)
    (periods : nat) : list (option Q) :=
  map (fun i => calculate_depreciation asset (Z.of_nat i) period_type)
      (seq 1 periods).

(** Periods in a year for a period type: anything but ['monthly'] is
    taken as annual. *)
Definition periods_per_year (period_type : string) : nat :=
  if String.eqb period_type "monthly" then 12%nat else 1%nat.

(** The year a period falls in. *)
Definition year_of (period_type : string) (period : Z) : Z :=
  if String.eqb period_type "monthly"
  then ((period - 1) / 12 + 1)%Z else period.

Definition example_asset (method : string) : Asset :=
  mkAsset 1000 100 3 method.

(** The amount a call returned, [0] when it raised. *)
Definition amount_or_zero (o : option Q) : Q :=
  match o with Some d => d | None => 0 end.

(** What a full year charges under the straight-line and the sum-of-years
    method. *)
Definition annual_charge (asset : Asset) (year : Z) : Q :=
  if String.eqb (depreciation_method asset) "straight_line"
  then (cost asset - salvage_value asset) / inject_Z (useful_life asset)
  else inject_Z (useful_life asset - year + 1)
       / (inject_Z (useful_life asset * (useful_life asset + 1)) / 2)
       * (cost asset - salvage_value asset).

(** What the first [years] full years charge together. *)
Definition charged_after (asset : Asset) (years : Z) : Q :=
  if String.eqb (depreciation_method asset) "straight_line"
  then (cost asset - salvage_value asset) * inject_Z years
       / inject_Z (useful_life asset)
  else (cost asset - salvage_value asset)
       * inject_Z (years * (2 * useful_life asset - years + 1))
       / inject_Z (useful_life asset * (useful_life asset + 1)).


(** ** Editing the inventory card *)

(** The patches [{'purchase_unit_price': ..., 'purchase_amount': ...}] and
    [{'sales_unit_price': ..., 'sales_amount': ...}] applied to one row. *)
Definition set_purchase_price (r : InventoryRow) (price amount : Q)
    : InventoryRow :=
  mkInventoryRow (inv_id r) (inv_date r) (inv_doc_no r) (inv_description r)
    (inv_product_name r) (purchase_quantity r) price amount
    (sales_quantity r) (sales_unit_price r) (sales_amount r)
    (balance_quantity r) (balance_unit_price r) (balance_amount r)
    (inv_employee r).

Definition set_sales_price (r : InventoryRow) (price amount : Q)
    : InventoryRow :=
  mkInventoryRow (inv_id r) (inv_date r) (inv_doc_no r) (inv_description r)
    (inv_product_name r) (purchase_quantity r) (purchase_unit_price r)
    (purchase_amount r) (sales_quantity r) price amount
    (balance_quantity r) (balance_unit_price r) (balance_amount r)
    (inv_employee r).

(** [new_data] is read at its keys ['purchase_unit_price'] and
    ['sales_unit_price'] only; [.single()] raises unless exactly one row
    has the id, and the handler turns that into [False]. *)
Definition update_inventory_entry (db : Store) (card_id : Z)
    (new_purchase_unit_price new_sales_unit_price : option Q)
    : Store * bool :=
  match filter (fun r => (inv_id r =? card_id)%Z) (inventory_card db) with
  | [entry] =>
      let qty_in := purchase_quantity entry in
      let qty_out := sales_quantity entry in
      let data_to_update :=
        match new_purchase_unit_price, new_sales_unit_price with
        | Some new_price, _ =>
            Some (fun r => set_purchase_price r new_price
                                              (qty_in * new_price))
        | None, Some new_price =>
            Some (fun r => set_sales_price r new_price
                                           (qty_out * new_price))
        | None, None => None
        end in
      match data_to_update with
      | None => (db, true)
      | Some patch =>
          let db :=
            mkStore (accounts db) (journal_entries db) (sales db)
                    (purchases db)
                    (map (fun r => if (inv_id r =? card_id)%Z
                                   then patch r else r)
                         (inventory_card db)) in
          let '(db, recalculate_success) :=
            recalculate_inventory_balances db in
          if recalculate_success then (db, true) else (db, false)
      end
  | _ => (db, false)
  end.

Definition delete_inventory_card (db : Store) (card_id : Z)
    : Store * bool :=
  let db :=
    mkStore (accounts db) (journal_entries db) (sales db) (purchases db)
            (filter (fun r => negb (inv_id r =? card_id)%Z)
                    (inventory_card db)) in
  (fst (recalculate_inventory_balances db), true).

(** ** Maintaining the chart of accounts *)

Definition create_account (db : Store)
    (code name type normal_bal : string) (beginning_bal : Q)
    : Store * option Account :=
  if String.eqb code "" || String.eqb name "" then (db, None)
  else if existsb (fun a => String.eqb (account_code a) code) (accounts db)
  then (db, None)
  else
    let data := mkAccount code name type normal_bal beginning_bal in
    (mkStore (accounts db ++ [data])%list (journal_entries db) (sales db)
             (purchases db) (inventory_card db),
     Some data).

(** ** Cashier sales *)

(** One line of the cart: the quantity as the form sent it, and its
    reading [float(item['quantity'])]. *)
Record CartItem := mkCartItem {
  cart_name : string;
  cart_quantity_text : string;
  cart_quantity : Q
}.

Record TransactionRow := mkTransactionRow {
  transaction_code : string;
  transaction_date : Z;
  transaction_items : list CartItem;
  transaction_total_amount : Q;
  payment_method : string;
  cashier_username : string
}.

Inductive TransactionResult :=
| TransactionStored   (* [return response.data[0]] *)
| StockShort          (* [raise Exception("Stok untuk ... tidak mencukupi!")] *)
| NoStockRow.         (* [last_entry] is [None] in the second loop *)

Definition current_stock (db : Store) (name : string) : Q :=
  match get_last_inventory_entry db name with
  | Some last_entry => balance_quantity last_entry
  | None => 0
  end.

(** The second loop [for item in items]: one inventory row per line of the
    cart, the cost of goods added up on the way; it stops where a product
    has no row on the card. *)
Fixpoint post_items (db : Store) (date : Z) (code cashier : string)
    (items : list CartItem) (total_hpp : Q) : Store * option Q :=
  match items with
  | [] => (db, Some total_hpp)
  | item :: rest =>
      match get_last_inventory_entry db (cart_name item) with
      | None => (db, None)
      | Some last_entry =>
          let hpp_per_unit := balance_unit_price last_entry in
          let item_hpp := cart_quantity item * hpp_per_unit in
          let total_hpp := total_hpp + item_hpp in
          let last_qty := balance_quantity last_entry in
          let last_balance_amount := balance_amount last_entry in
          let new_balance_qty := last_qty - cart_quantity item in
          let new_balance_amount := last_balance_amount - item_hpp in
          let db :=
            insert_inventory_row db
              (fun id =>
                 mkInventoryRow id date code
                   ("Penjualan " ++ cart_quantity_text item ++ " kg "
                    ++ cart_name item)
                   (cart_name item) 0 0 0
                   (cart_quantity item) hpp_per_unit item_hpp
                   new_balance_qty hpp_per_unit new_balance_amount
                   cashier) in
          post_items db date code cashier rest total_hpp
      end
  end.

Definition create_transaction (db : Store)
    (transactions : list TransactionRow) (date : Z) (code : string)
    (items : list CartItem) (total_amount : Q) (cashier : string)
    : Store * list TransactionRow * TransactionResult :=
  if existsb (fun item => Qltb (current_stock db (cart_name item))
                               (cart_quantity item))
             items
  then (db, transactions, StockShort)
  else
    let transactions :=
      (transactions
       ++ [mkTransactionRow code date items total_amount "cash"
                            cashier])%list in
    match post_items db date code cashier items 0 with
    | (db, None) => (db, transactions, NoStockRow)
    | (db, Some total_hpp) =>
        let db :=
          insert_journal_entry db date "1-1000" "Kas"
            ("Penjualan tunai " ++ code) total_amount 0 "GJ" code in
        let db :=
          insert_journal_entry db date "4-1000" "Pendapatan Penjualan"
            ("Penjualan tunai " ++ code) 0 total_amount "GJ" code in
        let db :=
          insert_journal_entry db date "5-1000" "Beban Pokok Penjualan"
            ("HPP penjualan " ++ code) total_hpp 0 "GJ" code in
        let db :=
          insert_journal_entry db date "1-1200" "Persediaan Ikan Mujair"
            ("Pengurangan persediaan untuk " ++ code) 0 total_hpp "GJ"
            code in
        (db, transactions, TransactionStored)
    end.

(** No line of the cart asks for more than the card holds of its
    product, each line taken on its own. *)
Definition stock_covers (db : Store) (items : list CartItem) : Prop :=
  forall item, In item items ->
    cart_quantity item <= current_stock db (cart_name item).

(** ** Closing entries *)

Definition create_closing_entry (db : Store) (date : Z)
    (account_code account_name description : string) (debit credit : Q)
    : Store :=
  insert_journal_entry db date account_code account_name description
                       debit credit "CJ" "CLOSING".

(** The route [akuntan_delete_account]; [authorized] is the session check
    for the role ['akuntan']. *)
Definition akuntan_delete_account (db : Store) (authorized : bool)
    (code : string) : Store * bool :=
  if negb authorized then (db, false)
  else
    let all_journals :=
      filter (fun e => String.eqb (je_account_code e) code)
             (journal_entries db) in
    let journal_count := List.length all_journals in
    let db :=
      if (0 <? journal_count)%nat
      then mkStore (accounts db)
                   (filter (fun e => negb (String.eqb (je_account_code e)
                                                      code))
                           (journal_entries db))
                   (sales db) (purchases db) (inventory_card db)
      else db in
    (mkStore (filter (fun a => negb (String.eqb (account_code a) code))
                     (accounts db))
             (journal_entries db) (sales db) (purchases db)
             (inventory_card db),
     true).

(** ** Manual inventory entry of the accountant *)

(** [data.get(key, default)] *)
Definition get_or (value : option string) (default : string) : string :=
  match value with Some v => v | None => default end.

(** The route [akuntan_inventory_add] with its HTTP status; [authorized]
    is the session check, [date] is [None] when the field is missing or
    empty. *)
Definition akuntan_inventory_add (db : Store) (authorized : bool)
    (username stamp : string) (date : option Z) (item_name : string)
    (quantity unit_price quantity_out : Q)
    (description ref_code : option string) : Store * Z :=
  if negb authorized then (db, 401%Z)
  else
    match date with
    | None => (db, 400%Z)
    | Some date =>
        if negb (negb (String.eqb item_name "")
                 && Qgtb quantity 0 && Qgtb unit_price 0)
        then (db, 400%Z)
        else if Qgtb quantity 0 then
          let '(db, success) :=
            process_purchase db stamp date "bibit" item_name quantity
              unit_price (quantity * unit_price) username
              (get_or description "Pembelian manual oleh akuntan")
              (get_or ref_code "MANUAL-BL") in
          if success then (db, 200%Z) else (db, 500%Z)
        else if Qgtb quantity_out 0 then
          match process_sale db stamp date item_name quantity_out
                  unit_price (quantity_out * unit_price) username
                  (get_or description "Penjualan manual oleh akuntan")
                  (get_or ref_code "MANUAL-JL") with
          | (db, SaleDone) => (db, 200%Z)
          | (db, InsufficientStock) => (db, 500%Z)
          end
        else (db, 400%Z)
    end.

(** A sale on credit on day 15, after a cash receipt on day 1: within the
    period from day 10 to day 30 the journal has lines, none of them on
    the cash account. *)
Definition credit_sale_store : Store :=
  mkStore
    [ mkAccount "1-1000" "Kas" "aset" "debit" 500;
      mkAccount "1-1400" "Piutang Usaha" "aset" "debit" 0;
      mkAccount "3-1000" "Modal" "ekuitas" "credit" 500;
      mkAccount "4-1000" "Penjualan" "pendapatan" "credit" 0 ]
    [ mkJournalEntry 1 1 "1-1000" "Kas" "Penjualan tunai" 300 0 "GJ"
                     "GJ-1" "";
      mkJournalEntry 2 1 "4-1000" "Penjualan" "Penjualan tunai" 0 300 "GJ"
                     "GJ-1" "";
      mkJournalEntry 3 15 "1-1400" "Piutang Usaha" "Penjualan kredit" 250 0
                     "GJ" "GJ-2" "";
      mkJournalEntry 4 15 "4-1000" "Penjualan" "Penjualan kredit" 0 250
                     "GJ" "GJ-2" "" ]
    [] [] [].

(** ** Properties *)

Lemma find_code_none (l : list Account) (code : string) :
  (forall acc, In acc l -> account_code acc <> code) ->
  find (fun acc => String.eqb (account_code acc) code) l = None.
Proof.
  induction l as [|a l IH]; intros H; [reflexivity|].
  cbn [find].
  destruct (String.eqb_spec (account_code a) code) as [E|_].
  - exfalso. apply (H a); [left; reflexivity | exact E].
  - apply IH. intros acc Hin. apply H. right. exact Hin.
Qed.

(** C10: for an account code that is not in the registry,
    [get_ledger_balance] returns 0, whatever the end date and the
    journal-class filter, and reports no failure. *)
Theorem get_ledger_balance_unregistered
    (db : Store) (code : string) (end_date : option Z)
    (journal_types : option (list string)) :
  ~ registered db code ->
  get_ledger_balance db code end_date journal_types = 0.
Proof.
  intros Hnot. unfold get_ledger_balance.
  rewrite find_code_none; [reflexivity|].
  intros acc Hin Hcode. apply Hnot. exists acc. split; assumption.
Qed.

(** *** Boolean comparisons on rationals *)

Lemma Qltb_true (x y : Q) : Qltb x y = true <-> x < y.
Proof.
  unfold Qltb. rewrite negb_true_iff. split.
  - intros H. apply Qnot_le_lt. intros Hle.
    apply Qle_bool_iff in Hle. congruence.
  - intros H. destruct (Qle_bool y x) eqn:E; [|reflexivity].
    apply Qle_bool_iff in E. lra.
Qed.

Lemma Qltb_false (x y : Q) : Qltb x y = false <-> y <= x.
Proof.
  unfold Qltb. rewrite negb_false_iff. apply Qle_bool_iff.
Qed.

Lemma Qgtb_true (x y : Q) : Qgtb x y = true <-> y < x.
Proof. apply Qltb_true. Qed.

Lemma Qgtb_false (x y : Q) : Qgtb x y = false <-> x <= y.
Proof. apply Qltb_false. Qed.

(** *** Inventory costing ledger *)

Lemma average_price_spec (qty amt : Q) :
  let avg := if Qgtb qty 0 then amt / qty else 0 in
  (0 < qty -> avg == amt / qty) /\ (~ 0 < qty -> avg == 0).
Proof.
  cbv zeta. destruct (Qgtb qty 0) eqn:E.
  - apply Qgtb_true in E. split; intros H; [reflexivity | contradiction].
  - apply Qgtb_false in E. split; intros H; [lra | reflexivity].
Qed.

(** The row appended by a stock purchase and the row appended by a
    successful sale satisfy the running-balance recurrence against the
    row that [get_last_inventory_entry] returns for the product. *)
Lemma appended_rows_recurrence
    (db : Store) (stamp : string) (date : Z) (item_name : string)
    (quantity unit_price total_amount : Q)
    (employee description prefix : string) :
  (exists row,
     inventory_card
       (fst (process_purchase db stamp date "bibit" item_name quantity
               unit_price total_amount employee description prefix))
     = (inventory_card db ++ [row])%list
     /\ inv_product_name row = item_name
     /\ purchase_quantity row = quantity
     /\ purchase_amount row = total_amount
     /\ running_balance (fst (prior_balances db item_name))
                        (snd (prior_balances db item_name)) row)
  /\ (snd (process_sale db stamp date item_name quantity unit_price
             total_amount employee description prefix) = SaleDone ->
      exists row last,
        get_last_inventory_entry db item_name = Some last
        /\ inventory_card
             (fst (process_sale db stamp date item_name quantity unit_price
                     total_amount employee description prefix))
           = (inventory_card db ++ [row])%list
        /\ inv_product_name row = item_name
        /\ sales_quantity row = quantity
        /\ sales_unit_price row = balance_unit_price last
        /\ sales_amount row = quantity * balance_unit_price last
        /\ running_balance (balance_quantity last) (balance_amount last) row).
Proof.
  split.
  - unfold process_purchase, prior_balances.
    change (account_mapping "bibit")
      with (Some (("1-1200", "Persediaan Ikan Mujair"), ("1-1000", "Kas"))).
    change ("bibit" =? "bibit")%string with true. cbv beta iota zeta.
    unfold insert_journal_entry, insert_inventory_row,
      get_last_inventory_entry.
    cbn [inventory_card accounts journal_entries sales purchases fst snd].
    destruct (hd_error _) as [last|];
      cbn [fst snd inventory_card]; eexists; (split; [reflexivity|]);
      cbn [inv_product_name purchase_quantity purchase_amount];
      repeat (split; [reflexivity|]);
      unfold running_balance;
      cbn [balance_quantity balance_amount balance_unit_price
           purchase_quantity purchase_amount sales_quantity sales_amount];
      (split; [ring|]); (split; [ring|]); apply average_price_spec.
  - unfold process_sale.
    unfold insert_journal_entry, insert_inventory_row,
      get_last_inventory_entry.
    cbn [inventory_card accounts journal_entries sales purchases fst snd].
    destruct (hd_error _) as [last|]; [|discriminate].
    destruct (Qltb (balance_quantity last) quantity); [discriminate|].
    intros _. cbn [fst snd inventory_card]. eexists. exists last.
    split; [reflexivity|]. split; [reflexivity|].
    cbn [inv_product_name sales_quantity sales_unit_price sales_amount].
    repeat (split; [reflexivity|]).
    unfold running_balance.
    cbn [balance_quantity balance_amount balance_unit_price
         purchase_quantity purchase_amount sales_quantity sales_amount].
    (split; [ring|]); (split; [ring|]); apply average_price_spec.
Qed.

(** *** Recalculation *)

Section OrderByMap.
Context {A : Type} (le : A -> A -> bool) (f : A -> A).
Hypothesis le_f : forall x y, le (f x) (f y) = le x y.

Lemma insert_sorted_map (x : A) (l : list A) :
  insert_sorted le (f x) (map f l) = map f (insert_sorted le x l).
Proof.
  induction l as [|y l IH]; [reflexivity|].
  cbn [map insert_sorted]. rewrite le_f.
  destruct (le y x); cbn [map]; [rewrite IH|]; reflexivity.
Qed.

Lemma order_by_map (l : list A) :
  order_by le (map f l) = map f (order_by le l).
Proof.
  unfold order_by.
  change (@nil A) with (map f []) at 1.
  generalize (@nil A) as acc.
  induction l as [|x l IH]; intros acc; [reflexivity|].
  cbn [map fold_left]. rewrite insert_sorted_map. apply IH.
Qed.
End OrderByMap.

Lemma recalculate_loop_map (entries : list InventoryRow) :
  forall (q a : Q) (table : list InventoryRow),
    recalculate_loop entries q a table = map (row_after entries q a) table.
Proof.
  induction entries as [|e es IH]; intros q a table.
  - cbn. symmetry. apply map_id.
  - cbn [recalculate_loop row_after]. rewrite IH.
    unfold update_balances. rewrite map_map. reflexivity.
Qed.

Lemma movement_of_row_after (entries : list InventoryRow) :
  forall (q a : Q) (r : InventoryRow),
    movement_of (row_after entries q a r) = movement_of r.
Proof.
  induction entries as [|e es IH]; intros q a r; [reflexivity|].
  cbn [row_after]. rewrite IH.
  destruct (inv_id r =? inv_id e)%Z; reflexivity.
Qed.

Lemma movement_of_fields (r r' : InventoryRow) :
  movement_of r = movement_of r' ->
  inv_id r = inv_id r' /\ inv_date r = inv_date r'
  /\ purchase_quantity r = purchase_quantity r'
  /\ purchase_amount r = purchase_amount r'
  /\ sales_quantity r = sales_quantity r'
  /\ sales_amount r = sales_amount r'
  /\ forall q a v, set_balances r q a v = set_balances r' q a v.
Proof.
  unfold movement_of, set_balances. intros H.
  injection H as -> -> -> -> -> -> -> -> -> -> -> ->.
  repeat split; reflexivity.
Qed.

Lemma row_after_ext (es es' : list InventoryRow) :
  map movement_of es = map movement_of es' ->
  forall (q a : Q) (r : InventoryRow),
    row_after es q a r = row_after es' q a r.
Proof.
  revert es'. induction es as [|e es IH]; intros [|e' es'] H q a r;
    cbn [map] in H; try discriminate; [reflexivity|].
  assert (Hhead : movement_of e = movement_of e')
    by exact (f_equal (hd (movement_of e)) H).
  assert (Htail : map movement_of es = map movement_of es')
    by exact (f_equal (@tl _) H).
  destruct (movement_of_fields _ _ Hhead)
    as (Hid & _ & Hpq & Hpa & Hsq & Hsa & _).
  cbn [row_after]. rewrite Hid, Hpq, Hpa, Hsq, Hsa. apply IH, Htail.
Qed.

Lemma row_after_matched (es : list InventoryRow) :
  forall (q a : Q) (r r' : InventoryRow),
    movement_of r = movement_of r' ->
    existsb (fun e => (inv_id r =? inv_id e)%Z) es = true ->
    row_after es q a r = row_after es q a r'.
Proof.
  induction es as [|e es IH]; intros q a r r' Hm Hex; [discriminate|].
  destruct (movement_of_fields _ _ Hm) as (Hid & _ & _ & _ & _ & _ & Hset).
  cbn [row_after]. cbn [existsb] in Hex. rewrite <- Hid.
  destruct (inv_id r =? inv_id e)%Z.
  - rewrite Hset. reflexivity.
  - apply IH; assumption.
Qed.

Lemma row_after_unmatched (es : list InventoryRow) :
  forall (q a : Q) (r : InventoryRow),
    existsb (fun e => (inv_id r =? inv_id e)%Z) es = false ->
    row_after es q a r = r.
Proof.
  induction es as [|e es IH]; intros q a r Hex; [reflexivity|].
  cbn [row_after]. cbn [existsb] in Hex.
  apply orb_false_iff in Hex. destruct Hex as [-> Hex]. apply IH, Hex.
Qed.

Lemma row_after_idempotent (es : list InventoryRow) (q a : Q)
    (r : InventoryRow) :
  row_after es q a (row_after es q a r) = row_after es q a r.
Proof.
  pose proof (movement_of_row_after es q a r) as Hm.
  destruct (movement_of_fields _ _ Hm) as (Hid & _).
  destruct (existsb (fun e => (inv_id r =? inv_id e)%Z) es) eqn:Hex.
  - apply row_after_matched; [exact Hm|]. rewrite Hid. exact Hex.
  - apply row_after_unmatched. rewrite Hid. exact Hex.
Qed.

Lemma by_date_then_id_row_after (es : list InventoryRow) (q a : Q)
    (x y : InventoryRow) :
  by_date_then_id (row_after es q a x) (row_after es q a y)
  = by_date_then_id x y.
Proof.
  destruct (movement_of_fields _ _ (movement_of_row_after es q a x))
    as (Hidx & Hdx & _).
  destruct (movement_of_fields _ _ (movement_of_row_after es q a y))
    as (Hidy & Hdy & _).
  unfold by_date_then_id. rewrite Hidx, Hdx, Hidy, Hdy. reflexivity.
Qed.

(** C8: running [recalculate_inventory_balances] a second time changes
    nothing: after the first run the store, and so the balance quantity,
    amount and unit price of every inventory-card row, is a fixed point of
    the recalculation. *)
Theorem recalculate_inventory_balances_idempotent (db : Store) :
  let once := fst (recalculate_inventory_balances db) in
  fst (recalculate_inventory_balances once) = once
  /\ map (fun r => (balance_quantity r, balance_amount r,
                    balance_unit_price r))
         (inventory_card (fst (recalculate_inventory_balances once)))
     = map (fun r => (balance_quantity r, balance_amount r,
                      balance_unit_price r))
           (inventory_card once).
Proof.
  cbv zeta.
  assert (H : fst (recalculate_inventory_balances
                     (fst (recalculate_inventory_balances db)))
              = fst (recalculate_inventory_balances db)).
  { unfold recalculate_inventory_balances.
    cbn [fst accounts journal_entries sales purchases inventory_card].
    f_equal.
    set (es := order_by by_date_then_id (inventory_card db)).
    rewrite (recalculate_loop_map es).
    rewrite order_by_map by apply by_date_then_id_row_after.
    fold es. rewrite recalculate_loop_map, map_map.
    apply map_ext. intros r.
    rewrite (row_after_ext (map (row_after es 0 0) es) es).
    - apply row_after_idempotent.
    - rewrite map_map. apply map_ext. intros e.
      apply movement_of_row_after. }
  split; [exact H | rewrite H; reflexivity].
Qed.

(** *** Sales and insufficient stock *)




(** *** Journal posting *)

(** C9 (the code departs from the claim): a general-journal pair whose
    credit account is not in the registry is not refused: the debit line
    alone is written and the post reports success. *)
Theorem akuntan_journal_gj_unknown_credit_account :
  let r := akuntan_journal_gj fresh_store 1 "GJ" "1-1000" "Setoran" 100
             "9-9999" "Setoran" 100 in
  find_account (get_all_accounts fresh_store) "9-9999" = None
  /\ snd r = Saved
  /\ map posted (journal_entries (fst r))
     = [("1-1000", "Setoran", 100, 0, "GJ", "GJ", 1%Z)].
Proof.
  cbv zeta. repeat split; vm_compute; reflexivity.
Qed.

Lemma find_account_registered (l : list Account) (code : string) :
  (exists acc, In acc l /\ account_code acc = code) ->
  exists acc, find_account l code = Some acc /\ account_code acc = code.
Proof.
  intros (acc & Hin & Hcode). unfold find_account.
  destruct (find (fun a => account_code a =? code)%string l) as [a|] eqn:E.
  - exists a. split; [reflexivity|].
    apply find_some in E. apply String.eqb_eq, E.
  - exfalso. apply (find_none _ _ E) in Hin.
    rewrite Hcode, String.eqb_refl in Hin. discriminate.
Qed.


Lemma journal_entries_insert (db : Store) (date : Z)
    (code name description : string) (debit credit : Q)
    (journal_type ref_code : string) :
  journal_entries
    (insert_journal_entry db date code name description debit credit
                          journal_type ref_code)
  = (journal_entries db
     ++ [mkJournalEntry (next_id je_id (journal_entries db)) date code name
                        description debit credit journal_type ref_code ""])%list.
Proof. reflexivity. Qed.




(** *** Sums *)

Lemma fold_left_Qplus (xs : list Q) :
  forall a : Q, fold_left Qplus xs a == a + sum xs.
Proof.
  unfold sum. induction xs as [|x xs IH]; intros a; cbn [fold_left].
  - ring.
  - rewrite (IH (a + x)), (IH (0 + x)). ring.
Qed.

Lemma sum_cons (x : Q) (xs : list Q) : sum (x :: xs) == x + sum xs.
Proof.
  unfold sum at 1. cbn [fold_left]. rewrite fold_left_Qplus. ring.
Qed.

Lemma sum_map_total {A : Type} (f : A -> Q) (l : list A) :
  sum (map f l) == total f l.
Proof.
  induction l as [|x l IH]; [reflexivity|].
  cbn [map total]. rewrite sum_cons, IH. reflexivity.
Qed.






Lemma total_app {A : Type} (f : A -> Q) (l1 l2 : list A) :
  total f (l1 ++ l2) == total f l1 + total f l2.
Proof.
  induction l1 as [|x l1 IH]; cbn [app total]; [ring | rewrite IH; ring].
Qed.


(** *** Dictionaries built from lists with distinct keys *)

Section DictOfList.
Context {A V : Type} (key : A -> string).

Lemma key_injective (xs : list A) (x y : A) :
  NoDup (map key xs) -> In x xs -> In y xs -> key x = key y -> x = y.
Proof.
  induction xs as [|z xs IH]; intros Hnd Hx Hy Hk; [contradiction|].
  cbn [map] in Hnd. inversion Hnd as [|? ? Hnotin Hnd']; subst.
  destruct Hx as [->|Hx], Hy as [->|Hy].
  - reflexivity.
  - exfalso. apply Hnotin. rewrite Hk. apply in_map, Hy.
  - exfalso. apply Hnotin. rewrite <- Hk. apply in_map, Hx.
  - apply IH; assumption.
Qed.





End DictOfList.

(** *** The batched aggregator, account by account *)






Lemma find_account_in (accs : list Account) (acc : Account) :
  NoDup (map account_code accs) -> In acc accs ->
  find (fun a => String.eqb (account_code a) (account_code acc)) accs
  = Some acc.
Proof.
  intros Hnd Hin.
  destruct (find_account_registered accs (account_code acc))
    as (a & Hfind & Hcode); [exists acc; split; [assumption|reflexivity]|].
  unfold find_account in Hfind. rewrite Hfind. f_equal.
  apply (key_injective account_code accs); try assumption.
  apply find_some in Hfind. apply Hfind.
Qed.



(** *** The trial balance behind the statements *)










(** *** Balance sheet *)












(** *** Worksheet *)





Lemma split_columns_signed (nb : string) (x : Q) :
  fst (split_columns nb x) - snd (split_columns nb x)
  == debit_signed nb x.
Proof.
  unfold split_columns, debit_signed.
  destruct (String.eqb nb "debit"); cbn [fst snd];
    destruct (Qgtb x 0) eqn:Hpos; destruct (Qltb x 0) eqn:Hneg;
    try apply Qgtb_true in Hpos; try apply Qgtb_false in Hpos;
    try apply Qltb_true in Hneg; try apply Qltb_false in Hneg;
    try (rewrite Qabs_neg by lra); lra.
Qed.






(** *** Cash-flow statement *)

Lemma total_map {A B : Type} (f : B -> Q) (g : A -> B) (l : list A) :
  total f (map g l) == total (fun x => f (g x)) l.
Proof.
  induction l as [|x l IH]; cbn [map total]; [|rewrite IH]; reflexivity.
Qed.

Section DictTotals.
Context {V : Type} (mu : V -> Q).



Lemma get_set_same (d : Dict.t V) (k : string) (v : V) :
  Dict.get (Dict.set d k v) k = Some v.
Proof.
  induction d as [|[k' v'] d IH]; cbn [Dict.set Dict.get].
  - rewrite String.eqb_refl. reflexivity.
  - destruct (String.eqb k' k) eqn:E; cbn [Dict.get]; rewrite E;
      [reflexivity | exact IH].
Qed.
End DictTotals.




















(** *** The statements on worked examples *)

Ltac distinct_codes :=
  unfold unique_codes; vm_compute;
  repeat constructor; cbn; intuition discriminate.


Lemma get_ledger_balance_unregistered_witness :
  ~ registered cents_store "9-9999"
  /\ get_ledger_balance cents_store "9-9999" (Some 1%Z) (Some ["GJ"]) = 0.
Proof.
  assert (H : ~ registered cents_store "9-9999").
  { intros (acc & Hin & Hcode). vm_compute in Hin.
    repeat (destruct Hin as [<-|Hin]; [discriminate Hcode|]).
    exact Hin. }
  split; [exact H|].
  apply (get_ledger_balance_unregistered cents_store "9-9999" (Some 1%Z)
           (Some ["GJ"]) H).
Defined.







(** ** Further properties of the ledger engine *)

(** *** Balances do not depend on the order of the journal *)




(** *** Posting a line and reading the balance back *)



(** *** What the batched aggregator lists *)



(** *** The last row of a product *)

Lemma insert_sorted_in {A : Type} (le : A -> A -> bool) (x y : A)
    (l : list A) :
  In y (insert_sorted le x l) <-> y = x \/ In y l.
Proof.
  induction l as [|z l IH]; cbn [insert_sorted In].
  - intuition.
  - destruct (le z x); cbn [In]; [rewrite IH|]; intuition.
Qed.

Lemma order_by_in {A : Type} (le : A -> A -> bool) (y : A) (l : list A) :
  In y (order_by le l) <-> In y l.
Proof.
  unfold order_by.
  enough (H : forall acc,
               In y (fold_left (fun acc x => insert_sorted le x acc) l acc)
               <-> In y acc \/ In y l)
    by (rewrite H; cbn [In]; intuition).
  induction l as [|x l IH]; intros acc; cbn [fold_left In].
  - intuition.
  - rewrite IH, insert_sorted_in. intuition.
Qed.

Section GreatestFirst.
Context {A : Type} (id : A -> Z).

Let newest_first (a b : A) : bool := (id b <=? id a)%Z.

Let head_greatest (l : list A) : Prop :=
  forall h, hd_error l = Some h -> forall r, In r l -> (id r <= id h)%Z.

Lemma insert_sorted_head_greatest (x : A) (l : list A) :
  head_greatest l -> head_greatest (insert_sorted newest_first x l).
Proof.
  unfold head_greatest, newest_first. intros H h Hh r Hr.
  destruct l as [|y l]; cbn [insert_sorted] in *.
  - injection Hh as <-. destruct Hr as [->|[]]. lia.
  - destruct (Z.leb_spec (id x) (id y)) as [Hle|Hgt]; cbn [hd_error] in Hh;
      injection Hh as <-.
    + destruct Hr as [->|Hr]; [lia|].
      apply insert_sorted_in in Hr. destruct Hr as [->|Hr]; [exact Hle|].
      apply (H y eq_refl). right. exact Hr.
    + destruct Hr as [->|Hr]; [lia|].
      specialize (H y eq_refl r Hr). lia.
Qed.

Lemma order_by_head_greatest (l : list A) :
  head_greatest (order_by newest_first l).
Proof.
  unfold order_by.
  enough (H : forall acc, head_greatest acc ->
               head_greatest
                 (fold_left (fun acc x => insert_sorted newest_first x acc)
                            l acc))
    by (apply H; intros h Hh; discriminate).
  induction l as [|x l IH]; intros acc Hacc; cbn [fold_left].
  - exact Hacc.
  - apply IH, insert_sorted_head_greatest, Hacc.
Qed.
End GreatestFirst.

(** X4: [get_last_inventory_entry] finds nothing exactly when the product
    has no row on the card; the row it finds is a row of that product on
    the card whose id is at least the id of every row of the product. *)
Theorem get_last_inventory_entry_is_newest
    (db : Store) (product_name : string) :
  (get_last_inventory_entry db product_name = None
   <-> forall r, In r (inventory_card db) ->
                 inv_product_name r <> product_name)
  /\ forall last,
       get_last_inventory_entry db product_name = Some last ->
       In last (inventory_card db)
       /\ inv_product_name last = product_name
       /\ forall r, In r (inventory_card db) ->
                    inv_product_name r = product_name ->
                    (inv_id r <= inv_id last)%Z.
Proof.
  unfold get_last_inventory_entry.
  set (rows := filter (fun r => String.eqb (inv_product_name r)
                                           product_name)
                      (inventory_card db)).
  set (sorted := order_by (fun a b => (inv_id b <=? inv_id a)%Z) rows).
  assert (Hin : forall r, In r sorted
                          <-> In r (inventory_card db)
                              /\ inv_product_name r = product_name).
  { intros r. unfold sorted. rewrite order_by_in. unfold rows.
    rewrite filter_In, String.eqb_eq. reflexivity. }
  split.
  - split.
    + intros Hnone r Hr Hp.
      destruct sorted as [|h t] eqn:E; [|discriminate].
      apply (Hin r). split; assumption.
    + intros Hno. destruct sorted as [|h t] eqn:E; [reflexivity|].
      exfalso. destruct (proj1 (Hin h) (or_introl eq_refl)) as [Hh Hp].
      exact (Hno h Hh Hp).
  - intros last Hlast.
    assert (Hl : In last sorted)
      by (destruct sorted as [|h t]; [discriminate|];
          injection Hlast as ->; left; reflexivity).
    apply Hin in Hl. destruct Hl as [Hl Hp].
    split; [exact Hl|]. split; [exact Hp|].
    intros r Hr Hrp.
    apply (order_by_head_greatest inv_id rows last Hlast).
    apply Hin. split; assumption.
Qed.

Lemma get_last_inventory_entry_is_newest_witness :
  exists last,
    get_last_inventory_entry stocked_store "Ikan Mujair" = Some last
    /\ In last (inventory_card stocked_store)
    /\ inv_id last = 2%Z.
Proof.
  eexists. split; [vm_compute; reflexivity|].
  split; [|reflexivity].
  apply (proj2 (get_last_inventory_entry_is_newest stocked_store
                  "Ikan Mujair") _ eq_refl).
Defined.

(** *** What the recalculation establishes *)

Lemma insert_sorted_perm {A : Type} (le : A -> A -> bool) (x : A)
    (l : list A) :
  Permutation (insert_sorted le x l) (x :: l).
Proof.
  induction l as [|y l IH]; cbn [insert_sorted]; [reflexivity|].
  destruct (le y x); [|reflexivity].
  rewrite IH. apply perm_swap.
Qed.

Lemma order_by_perm {A : Type} (le : A -> A -> bool) (l : list A) :
  Permutation (order_by le l) l.
Proof.
  unfold order_by.
  enough (H : forall acc,
               Permutation
                 (fold_left (fun acc x => insert_sorted le x acc) l acc)
                 (acc ++ l))
    by apply (H []).
  induction l as [|x l IH]; intros acc; cbn [fold_left].
  - rewrite app_nil_r. reflexivity.
  - rewrite IH, insert_sorted_perm. apply Permutation_middle.
Qed.

Lemma row_after_skip (es : list InventoryRow) (q a : Q)
    (r : InventoryRow) :
  ~ In (inv_id r) (map inv_id es) -> row_after es q a r = r.
Proof.
  intros Hout. apply row_after_unmatched.
  destruct (existsb _ es) eqn:E; [|reflexivity].
  exfalso. apply existsb_exists in E. destruct E as (e & He & Hid).
  apply Hout. apply Z.eqb_eq in Hid. rewrite Hid. apply in_map, He.
Qed.

Lemma chained_row_after (es : list InventoryRow) :
  NoDup (map inv_id es) ->
  forall q a : Q, chained q a (map (row_after es q a) es).
Proof.
  induction es as [|e es IH]; intros Hnd q a; [exact I|].
  cbn [map] in Hnd. inversion Hnd as [|? ? Hout Hnd']; subst.
  cbn [map row_after chained]. rewrite Z.eqb_refl.
  set (q' := q + purchase_quantity e - sales_quantity e).
  set (a' := a + purchase_amount e - sales_amount e).
  set (v' := if Qgtb q' 0 then a' / q' else 0).
  rewrite (row_after_skip es q' a' (set_balances e q' a' v')) by exact Hout.
  split.
  - unfold running_balance.
    cbn [set_balances balance_quantity balance_amount balance_unit_price
         purchase_quantity purchase_amount sales_quantity sales_amount].
    split; [reflexivity|]. split; [reflexivity|].
    apply average_price_spec.
  - cbn [set_balances balance_quantity balance_amount].
    rewrite (map_ext_in _ (row_after es q' a')); [apply IH, Hnd'|].
    intros r Hr.
    destruct (Z.eqb_spec (inv_id r) (inv_id e)) as [E|_]; [|reflexivity].
    exfalso. apply Hout. rewrite <- E. apply in_map, Hr.
Qed.

Lemma recalculate_chronological (rows : list InventoryRow) :
  chronological
    (recalculate_loop (chronological rows) 0 0 rows)
  = map (row_after (chronological rows) 0 0) (chronological rows).
Proof.
  unfold chronological. rewrite recalculate_loop_map.
  apply order_by_map. apply by_date_then_id_row_after.
Qed.

(** X5: when the ids of the inventory card are unique, after
    [recalculate_inventory_balances] the rows of the card, taken by date
    and then id, satisfy the running-balance recurrence one after the
    other from zero balances; the running totals run over all rows, of
    whatever product. *)
Theorem recalculate_inventory_balances_chains (db : Store) :
  NoDup (map inv_id (inventory_card db)) ->
  chained 0 0
    (chronological
       (inventory_card (fst (recalculate_inventory_balances db)))).
Proof.
  intros Hnd. unfold recalculate_inventory_balances.
  cbn [fst inventory_card].
  fold (chronological (inventory_card db)).
  rewrite recalculate_chronological.
  apply chained_row_after.
  eapply Permutation_NoDup; [|exact Hnd].
  apply Permutation_map. symmetry. apply order_by_perm.
Qed.

Lemma recalculate_inventory_balances_chains_witness :
  NoDup (map inv_id (inventory_card stocked_store))
  /\ chained 0 0
       (chronological
          (inventory_card
             (fst (recalculate_inventory_balances stocked_store)))).
Proof.
  assert (H : NoDup (map inv_id (inventory_card stocked_store)))
    by (vm_compute; repeat constructor; cbn; intuition discriminate).
  split; [exact H|].
  apply (recalculate_inventory_balances_chains stocked_store H).
Defined.

(** *** Sales and purchases *)

(** X6: a completed [process_sale] leaves a stock that is not negative,
    and appends one sales row and four journal lines under one reference
    code whose debits equal their credits: the sale amount against cash
    and revenue, the cost of the goods against expense and inventory. *)
Theorem process_sale_done
    (db : Store) (stamp : string) (date : Z) (item_name : string)
    (quantity unit_price total_amount : Q)
    (employee description prefix : string) :
  let r := process_sale db stamp date item_name quantity unit_price
             total_amount employee description prefix in
  snd r = SaleDone ->
  exists row l1 l2 l3 l4,
    inventory_card (fst r) = (inventory_card db ++ [row])%list
    /\ 0 <= balance_quantity row
    /\ List.length (sales (fst r)) = S (List.length (sales db))
    /\ journal_entries (fst r)
       = (journal_entries db ++ [l1; l2; l3; l4])%list
    /\ map je_account_code [l1; l2; l3; l4]
       = ["1-1000"; "4-1000"; "5-1000"; "1-1200"]
    /\ (forall l, In l [l1; l2; l3; l4] ->
          je_ref_code l = je_ref_code l1 /\ je_journal_type l = "GJ")
    /\ total je_debit [l1; l2; l3; l4] == total je_credit [l1; l2; l3; l4]
    /\ je_debit l1 = total_amount
    /\ je_debit l3 = sales_amount row.
Proof.
  cbv zeta. unfold process_sale.
  unfold get_last_inventory_entry.
  cbn [inventory_card accounts journal_entries sales purchases].
  destruct (hd_error _) as [last|]; [|discriminate].
  destruct (Qltb (balance_quantity last) quantity) eqn:Hstock;
    [discriminate|].
  intros _. apply Qltb_false in Hstock.
  unfold insert_inventory_row, insert_journal_entry.
  cbn [fst inventory_card accounts journal_entries sales purchases].
  do 5 eexists. split; [reflexivity|].
  cbn [balance_quantity sales_amount]. split; [lra|].
  split; [rewrite length_app; cbn; lia|].
  split; [rewrite <- !app_assoc; reflexivity|].
  split; [reflexivity|]. split.
  { intros l Hl. cbn [In] in Hl.
    destruct Hl as [<-|[<-|[<-|[<-|[]]]]]; split; reflexivity. }
  split; [cbn [total je_debit je_credit]; ring|].
  split; reflexivity.
Qed.

Lemma process_sale_done_witness :
  snd (process_sale stocked_store "2026-11-03T12:00:00" 3 "Ikan Mujair" 2
         2000 4000 "kasir" "" "JL") = SaleDone
  /\ exists row,
       inventory_card
         (fst (process_sale stocked_store "2026-11-03T12:00:00" 3
                 "Ikan Mujair" 2 2000 4000 "kasir" "" "JL"))
       = (inventory_card stocked_store ++ [row])%list
       /\ 0 <= balance_quantity row.
Proof.
  assert (H : snd (process_sale stocked_store "2026-11-03T12:00:00" 3
                     "Ikan Mujair" 2 2000 4000 "kasir" "" "JL") = SaleDone)
    by (vm_compute; reflexivity).
  split; [exact H|].
  destruct (process_sale_done stocked_store "2026-11-03T12:00:00" 3
              "Ikan Mujair" 2 2000 4000 "kasir" "" "JL" H)
    as (row & _ & _ & _ & _ & Hcard & Hqty & _).
  exists row. split; [exact Hcard | exact Hqty].
Defined.

(** X7: [process_purchase] with an item type outside 'bibit',
    'perlengkapan' and 'peralatan' returns False after the purchase row
    is stored: the row stays, and no journal line and no inventory row is
    written.  With one of the three types it returns True and appends two
    journal lines of the amount, a debit to the item's asset account and a
    credit to cash '1-1000'; an inventory row is added for 'bibit' only. *)
Theorem process_purchase_outcomes
    (db : Store) (stamp : string) (date : Z) (item_type item_name : string)
    (quantity unit_price total_amount : Q)
    (employee description prefix : string) :
  let r := process_purchase db stamp date item_type item_name quantity
             unit_price total_amount employee description prefix in
  List.length (purchases (fst r)) = S (List.length (purchases db))
  /\ match account_mapping item_type with
     | None =>
         snd r = false
         /\ journal_entries (fst r) = journal_entries db
         /\ inventory_card (fst r) = inventory_card db
     | Some (debit_side, credit_side) =>
         snd r = true
         /\ fst credit_side = "1-1000"
         /\ (exists l1 l2,
               journal_entries (fst r)
               = (journal_entries db ++ [l1; l2])%list
               /\ (je_account_code l1, je_debit l1, je_credit l1)
                  = (fst debit_side, total_amount, 0)
               /\ (je_account_code l2, je_debit l2, je_credit l2)
                  = ("1-1000", 0, total_amount)
               /\ je_ref_code l1 = je_ref_code l2)
         /\ List.length (inventory_card (fst r))
            = if String.eqb item_type "bibit"
              then S (List.length (inventory_card db))
              else List.length (inventory_card db)
     end.
Proof.
  cbv zeta. unfold process_purchase.
  destruct (account_mapping item_type) as [[debit_side credit_side]|] eqn:Em.
  - assert (Hcash : fst credit_side = "1-1000").
    { unfold account_mapping in Em.
      repeat match type of Em with
             | (if ?c then _ else _) = _ => destruct c
             end; try discriminate; injection Em as _ <-; reflexivity. }
    destruct (String.eqb item_type "bibit");
      [destruct (get_last_inventory_entry _ item_name);
       cbv beta iota zeta|];
      unfold insert_inventory_row, insert_journal_entry;
      cbn [fst snd inventory_card accounts journal_entries sales purchases];
      (split; [rewrite length_app; cbn; lia|]);
      (split; [reflexivity|]); (split; [exact Hcash|]);
      (split; [do 2 eexists; rewrite <- app_assoc;
               (split; [reflexivity|]);
               cbn [je_account_code je_debit je_credit je_ref_code];
               rewrite Hcash; repeat split; reflexivity|]);
      rewrite ?length_app; cbn; lia.
  - cbn [fst snd purchases journal_entries inventory_card].
    split; [rewrite length_app; cbn; lia|]. repeat split.
Qed.

(** *** What the posting routes never write *)





(** *** Buckets of the cash-flow statement *)

Lemma dict_set_forall {V : Type} (P : string * V -> Prop) (d : Dict.t V)
    (k : string) (v : V) :
  Forall P d -> (forall k', P (k', v)) -> Forall P (Dict.set d k v).
Proof.
  intros Hd Hv. induction d as [|[k' v'] d IH]; cbn [Dict.set].
  - constructor; [apply Hv | constructor].
  - inversion Hd as [|? ? Hhd Htl]; subst.
    destruct (String.eqb k' k); constructor; auto.
Qed.

Lemma dict_get_forall {V : Type} (P : string * V -> Prop) (d : Dict.t V)
    (k : string) (v : V) :
  Forall P d -> Dict.get d k = Some v -> exists k', P (k', v).
Proof.
  intros Hd. induction d as [|[k' v'] d IH]; cbn [Dict.get];
    [discriminate|].
  inversion Hd as [|? ? Hhd Htl]; subst.
  destruct (String.eqb k' k); [|auto].
  intros [= <-]. exists k'. exact Hhd.
Qed.

Lemma dict_set_set {V : Type} (d : Dict.t V) (k : string) (v0 v : V) :
  Dict.set (Dict.set d k v0) k v = Dict.set d k v.
Proof.
  induction d as [|[k' v'] d IH]; cbn [Dict.set].
  - rewrite String.eqb_refl. reflexivity.
  - destruct (String.eqb k' k) eqn:E; cbn [Dict.set]; rewrite E;
      [reflexivity | rewrite IH; reflexivity].
Qed.

Lemma aggregate_ok (d : Dict.t AggItem) (code name : string) (x : Q) :
  cent <= x -> bucket_ok d -> bucket_ok (aggregate d code name x).
Proof.
  unfold bucket_ok, aggregate, Dict.mem. intros Hx Hd.
  destruct (Dict.get d code) as [it|] eqn:G.
  - rewrite G. apply dict_set_forall; [exact Hd|].
    intros k'. cbn [snd item_amount].
    destruct (dict_get_forall _ _ _ _ Hd G) as (k0 & Hit).
    cbn [snd] in Hit. unfold cent in *. lra.
  - rewrite get_set_same, dict_set_set.
    apply dict_set_forall; [exact Hd|].
    intros k'. cbn [snd item_amount]. lra.
Qed.

Lemma classify_ok (st : CashFlowAgg) (accounts_map : Dict.t string)
    (m : Q) (c : JournalEntry) :
  cent <= Qabs m -> buckets_ok st ->
  buckets_ok (classify st accounts_map m c).
Proof.
  intros Hm. unfold buckets_ok, classify.
  destruct st as [oi oo ii io fi fo].
  cbn [op_inflows_agg op_outflows_agg inv_inflows_agg inv_outflows_agg
       fin_inflows_agg fin_outflows_agg].
  intros (H1 & H2 & H3 & H4 & H5 & H6).
  repeat match goal with
         | |- context [if ?b then _ else _] => destruct b
         end;
    cbn [op_inflows_agg op_outflows_agg inv_inflows_agg inv_outflows_agg
         fin_inflows_agg fin_outflows_agg];
    repeat split; try assumption; apply aggregate_ok; assumption.
Qed.

Lemma pair_cash_entry_ok (accounts_map : Dict.t string) (m : Q)
    (others : list JournalEntry) (st : CashFlowAgg) :
  cent <= Qabs m -> buckets_ok st ->
  buckets_ok (pair_cash_entry st accounts_map m others).
Proof.
  intros Hm Hst. induction others as [|c others IH];
    cbn [pair_cash_entry]; [exact Hst|].
  destruct (Qltb _ cent); [apply classify_ok; assumption | exact IH].
Qed.

Lemma process_transaction_ok (accounts_map : Dict.t string)
    (st : CashFlowAgg) (entries : list JournalEntry) :
  buckets_ok st -> buckets_ok (process_transaction accounts_map st entries).
Proof.
  unfold process_transaction. destruct (_ || _)%bool; [auto|].
  generalize (filter (fun e => negb (is_cash e)) entries) as others.
  intros others. revert st.
  induction (filter is_cash entries) as [|e cash IH]; intros st Hst;
    cbn [fold_left]; [exact Hst|].
  apply IH. unfold process_cash_entry.
  destruct (Qltb (Qabs (movement e)) cent) eqn:Hsmall; [exact Hst|].
  apply pair_cash_entry_ok; [|exact Hst].
  apply Qltb_false, Hsmall.
Qed.

Lemma process_transactions_ok (accounts_map : Dict.t string)
    (groups : list (list JournalEntry)) :
  forall st, buckets_ok st ->
             buckets_ok (fold_left (process_transaction accounts_map)
                                   groups st).
Proof.
  induction groups as [|g groups IH]; intros st Hst; cbn [fold_left];
    [exact Hst|].
  apply IH, process_transaction_ok, Hst.
Qed.

Lemma bucket_ok_values (d : Dict.t AggItem) (it : AggItem) :
  bucket_ok d -> In it (Dict.values d) -> cent <= item_amount it.
Proof.
  unfold bucket_ok, Dict.values. intros Hd Hin.
  apply in_map_iff in Hin. destruct Hin as (kv & <- & Hkv).
  rewrite Forall_forall in Hd. apply Hd, Hkv.
Qed.

(** X10: every item a cash-flow statement lists, in any of its six
    buckets, carries an amount of at least 0.01; so no total of inflows
    or outflows is negative. *)
Theorem cash_flow_items_at_least_one_cent
    (db : Store) (start_date end_date : Z) :
  let s := generate_cash_flow_statement db start_date end_date in
  (forall it, In it (listed_items s) -> cent <= item_amount it)
  /\ 0 <= total_inflow (operating s) /\ 0 <= total_outflow (operating s)
  /\ 0 <= total_inflow (investing s) /\ 0 <= total_outflow (investing s)
  /\ 0 <= total_inflow (financing s) /\ 0 <= total_outflow (financing s).
Proof.
  cbv zeta. unfold generate_cash_flow_statement, listed_items, activity.
  cbn [operating investing financing inflows outflows total_inflow
       total_outflow].
  set (st := fold_left _ _ empty_agg).
  assert (Hst : buckets_ok st).
  { apply process_transactions_ok. repeat split; constructor. }
  destruct Hst as (H1 & H2 & H3 & H4 & H5 & H6).
  assert (Hsum : forall d, bucket_ok d ->
                           0 <= sum (map item_amount (Dict.values d))).
  { intros d Hd. rewrite sum_map_total.
    pose proof (bucket_ok_values d) as Hv.
    induction (Dict.values d) as [|it l IH]; cbn [total]; [lra|].
    assert (cent <= item_amount it) by (apply Hv; [exact Hd | left; auto]).
    assert (0 <= total item_amount l)
      by (apply IH; intros it' Hd' Hin; apply Hv; [exact Hd'|right; auto]).
    unfold cent in *. lra. }
  split.
  - intros it Hin. rewrite !in_app_iff in Hin.
    destruct Hin as [H|[H|[H|[H|[H|H]]]]];
      (eapply bucket_ok_values; [|exact H]); assumption.
  - repeat split; apply Hsum; assumption.
Qed.

Lemma dict_set_values_in {V : Type} (d : Dict.t V) (k : string) (v x : V) :
  In x (Dict.values (Dict.set d k v)) -> x = v \/ In x (Dict.values d).
Proof.
  unfold Dict.values.
  induction d as [|[k' v'] d IH]; cbn [Dict.set map In].
  - intuition.
  - destruct (String.eqb k' k); cbn [map In snd]; intuition.
Qed.

Lemma dict_get_values_in {V : Type} (d : Dict.t V) (k : string) (v : V) :
  Dict.get d k = Some v -> In v (Dict.values d).
Proof.
  unfold Dict.values.
  induction d as [|[k' v'] d IH]; cbn [Dict.get map In snd];
    [discriminate|].
  destruct (String.eqb k' k); [intros [= ->]; left; reflexivity|].
  intros H. right. apply IH, H.
Qed.

Lemma group_entry_members (d : Dict.t (list JournalEntry))
    (e x : JournalEntry) (g : list JournalEntry) :
  In g (Dict.values (group_entry d e)) -> In x g ->
  x = e \/ exists g0, In g0 (Dict.values d) /\ In x g0.
Proof.
  unfold group_entry, Dict.mem, Dict.get_default. intros Hg Hx.
  apply dict_set_values_in in Hg.
  destruct (Dict.get d (trans_id_of e)) as [old|] eqn:G.
  - rewrite G in Hg. destruct Hg as [->|Hg].
    + apply in_app_iff in Hx. destruct Hx as [Hx|[->|[]]]; [|left; auto].
      right. exists old. split; [|exact Hx].
      eapply dict_get_values_in, G.
    + right. exists g. split; assumption.
  - rewrite get_set_same in Hg. destruct Hg as [->|Hg].
    + destruct Hx as [->|[]]. left. reflexivity.
    + apply dict_set_values_in in Hg. destruct Hg as [->|Hg];
        [contradiction|].
      right. exists g. split; assumption.
Qed.

Lemma group_entries_members (es : list JournalEntry) :
  forall (d : Dict.t (list JournalEntry)) (g : list JournalEntry)
         (x : JournalEntry),
    In g (Dict.values (fold_left group_entry es d)) -> In x g ->
    In x es \/ exists g0, In g0 (Dict.values d) /\ In x g0.
Proof.
  induction es as [|e es IH]; intros d g x Hg Hx; cbn [fold_left] in Hg.
  - right. exists g. split; assumption.
  - destruct (IH _ _ _ Hg Hx) as [H|(g0 & Hg0 & Hx0)].
    + left. right. exact H.
    + destruct (group_entry_members _ _ _ _ Hg0 Hx0) as [->|H].
      * left. left. reflexivity.
      * right. exact H.
Qed.

(** Every line of a transaction group of the period is a journal line
    dated within the period. *)
Lemma transactions_in_period_members (db : Store) (start_date end_date : Z)
    (g : list JournalEntry) (x : JournalEntry) :
  In g (Dict.values (transactions_in_period db start_date end_date)) ->
  In x g ->
  In x (journal_entries db)
  /\ (start_date <= je_date x <= end_date)%Z.
Proof.
  intros Hg Hx. unfold transactions_in_period in Hg.
  destruct (group_entries_members _ _ _ _ Hg Hx) as [H|(g0 & [] & _)].
  unfold entries_in_period in H. apply order_by_in, filter_In in H.
  destruct H as [Hin Hdate]. split; [exact Hin|].
  apply andb_true_iff in Hdate. destruct Hdate as [H1 H2].
  apply Z.leb_le in H1, H2. lia.
Qed.

Lemma filter_none {A : Type} (p : A -> bool) (l : list A) :
  (forall x, In x l -> p x = false) -> filter p l = [].
Proof.
  induction l as [|x l IH]; intros H; [reflexivity|].
  cbn [filter]. rewrite (H x (or_introl eq_refl)).
  apply IH. intros y Hy. apply H. right. exact Hy.
Qed.

(** X11: when no journal line dated within the period is on the cash
    account, the cash-flow statement lists nothing, its net change is 0
    and its ending cash is its beginning cash. *)
Theorem cash_flow_without_cash_lines
    (db : Store) (start_date end_date : Z) :
  (forall e, In e (journal_entries db) ->
             (start_date <= je_date e <= end_date)%Z ->
             je_account_code e <> CASH_ACCOUNT_CODE) ->
  let s := generate_cash_flow_statement db start_date end_date in
  listed_items s = []
  /\ net_change s == 0
  /\ ending_cash s == beginning_cash s.
Proof.
  intros Hno. cbv zeta.
  assert (Hst : fold_left
                  (process_transaction
                     (Dict.of_list account_code account_name
                                   (get_all_accounts db)))
                  (Dict.values
                     (transactions_in_period db start_date end_date))
                  empty_agg
                = empty_agg).
  { pose proof (transactions_in_period_members db start_date end_date)
      as Hmem.
    induction (Dict.values (transactions_in_period db start_date end_date))
      as [|g groups IH]; cbn [fold_left]; [reflexivity|].
    replace (process_transaction _ empty_agg g) with empty_agg.
    - apply IH. intros g' x Hg'. apply Hmem. right. exact Hg'.
    - unfold process_transaction.
      rewrite (filter_none is_cash g); [reflexivity|].
      intros x Hx.
      destruct (Hmem g x (or_introl eq_refl) Hx) as [Hin Hdate].
      unfold is_cash.
      destruct (String.eqb_spec (je_account_code x) CASH_ACCOUNT_CODE)
        as [E|_]; [exfalso; exact (Hno x Hin Hdate E) | reflexivity]. }
  unfold generate_cash_flow_statement, listed_items.
  cbn [operating investing financing net_change ending_cash
       beginning_cash].
  rewrite Hst.
  set (b := get_ledger_balance db CASH_ACCOUNT_CODE
              (Some (start_date - 1)%Z) None).
  split; [reflexivity|]. split; [reflexivity|].
  change (b + 0 == b). ring.
Qed.

Lemma cash_flow_without_cash_lines_witness :
  (exists e, In e (journal_entries credit_sale_store)
             /\ (10 <= je_date e <= 30)%Z)
  /\ listed_items (generate_cash_flow_statement credit_sale_store 10 30) = []
  /\ net_change (generate_cash_flow_statement credit_sale_store 10 30) == 0
  /\ ending_cash (generate_cash_flow_statement credit_sale_store 10 30)
     == 800.
Proof.
  assert (H : forall e, In e (journal_entries credit_sale_store) ->
                        (10 <= je_date e <= 30)%Z ->
                        je_account_code e <> CASH_ACCOUNT_CODE).
  { intros e He Hd. cbn in He.
    destruct He as [<-|[<-|[<-|[<-|[]]]]]; cbn in Hd |- *;
      try lia; discriminate. }
  destruct (cash_flow_without_cash_lines credit_sale_store 10 30 H)
    as (H1 & H2 & H3).
  split.
  { exists (mkJournalEntry 3 15 "1-1400" "Piutang Usaha" "Penjualan kredit"
                           250 0 "GJ" "GJ-2" "").
    split; [cbn; tauto | cbn; lia]. }
  split; [exact H1|]. split; [exact H2|].
  rewrite H3. vm_compute. reflexivity.
Defined.

(** *** Journal queries *)

Lemma insert_sorted_Sorted {A : Type} (R : A -> A -> Prop)
    (le : A -> A -> bool) (x : A) (l : list A) :
  (forall a b, le a b = true -> R a b) ->
  (forall a b, le a b = false -> R b a) ->
  Sorted R l -> Sorted R (insert_sorted le x l).
Proof.
  intros Hle Hgt. induction l as [|y l IH]; intros Hs;
    cbn [insert_sorted].
  - repeat constructor.
  - inversion Hs as [|? ? Hs' Hhd]; subst.
    destruct (le y x) eqn:E.
    + constructor; [apply IH, Hs'|].
      destruct l as [|z l]; cbn [insert_sorted].
      * constructor. apply Hle, E.
      * destruct (le z x); constructor;
          [inversion Hhd; assumption | apply Hle, E].
    + constructor; [exact Hs|]. constructor. apply Hgt, E.
Qed.

Lemma order_by_Sorted {A : Type} (R : A -> A -> Prop)
    (le : A -> A -> bool) (l : list A) :
  (forall a b, le a b = true -> R a b) ->
  (forall a b, le a b = false -> R b a) ->
  Sorted R (order_by le l).
Proof.
  intros Hle Hgt. unfold order_by.
  enough (H : forall acc, Sorted R acc ->
               Sorted R (fold_left (fun acc x => insert_sorted le x acc)
                                   l acc))
    by (apply H; constructor).
  induction l as [|x l IH]; intros acc Hacc; cbn [fold_left];
    [exact Hacc|].
  apply IH, insert_sorted_Sorted; assumption.
Qed.

(** X12: [get_journal_entries] returns exactly the journal lines that
    pass its journal-class, start-date and end-date filters (an absent or
    empty filter lets every line pass), ordered by date. *)
Theorem get_journal_entries_sorted_and_filtered
    (db : Store) (journal_type : option string)
    (start_date end_date : option Z) :
  Sorted (fun a b => (je_date a <= je_date b)%Z)
         (get_journal_entries db journal_type start_date end_date)
  /\ forall e,
       In e (get_journal_entries db journal_type start_date end_date)
       <-> In e (journal_entries db)
           /\ match journal_type with
              | Some EmptyString | None => True
              | Some jt => je_journal_type e = jt
              end
           /\ match start_date with
              | Some s => (s <= je_date e)%Z
              | None => True
              end
           /\ match end_date with
              | Some d => (je_date e <= d)%Z
              | None => True
              end.
Proof.
  unfold get_journal_entries. split.
  - apply order_by_Sorted; intros a b H.
    + apply Z.leb_le, H.
    + apply Z.leb_gt in H. lia.
  - intros e. rewrite order_by_in, filter_In, !andb_true_iff.
    unfold date_filter.
    destruct journal_type as [[|c jt]|];
      destruct start_date; destruct end_date;
      rewrite ?String.eqb_eq, ?Z.leb_le; intuition.
Qed.

(** *** Trial balance before adjustment *)

Lemma get_trial_balance_columns (nb : string) (balance : Q) :
  (if String.eqb nb "debit" then
     (if Qgtb balance 0 then balance else 0,
      if Qltb balance 0 then Qabs balance else 0)
   else
     (if Qltb balance 0 then Qabs balance else 0,
      if Qgtb balance 0 then balance else 0))
  = split_columns nb balance.
Proof. reflexivity. Qed.

Lemma split_columns_shape (nb : string) (x : Q) :
  0 <= fst (split_columns nb x) /\ 0 <= snd (split_columns nb x)
  /\ (fst (split_columns nb x) = 0 \/ snd (split_columns nb x) = 0).
Proof.
  unfold split_columns.
  destruct (String.eqb nb "debit"); cbn [fst snd];
    destruct (Qgtb x 0) eqn:Hpos; destruct (Qltb x 0) eqn:Hneg;
    try apply Qgtb_true in Hpos; try apply Qltb_true in Hneg;
    try (exfalso; lra);
    repeat split; try apply Qabs_nonneg; try lra; auto.
Qed.

(** X13: every row of [get_trial_balance] belongs to a registered account
    and shows its general-journal balance on one side only: both columns
    are non-negative, one of them is 0, and debit minus credit is the
    balance read as a debit balance. *)
Theorem get_trial_balance_rows (db : Store) (date : option Z)
    (row : TrialBalanceRow) :
  In row (get_trial_balance db date) ->
  exists account,
    In account (get_all_accounts db)
    /\ tb_account_code row = account_code account
    /\ 0 <= tb_debit row /\ 0 <= tb_credit row
    /\ (tb_debit row = 0 \/ tb_credit row = 0)
    /\ tb_debit row - tb_credit row
       == debit_signed (normal_balance account)
            (get_ledger_balance db (account_code account) date
                                (Some ["GJ"])).
Proof.
  unfold get_trial_balance. intros H. apply in_flat_map in H.
  destruct H as (account & Hacc & H). cbv zeta in H.
  rewrite get_trial_balance_columns in H.
  destruct (_ || _)%bool; [|contradiction].
  set (bal := get_ledger_balance db (account_code account) date
                                 (Some ["GJ"])) in *.
  pose proof (split_columns_shape (normal_balance account) bal)
    as (H1 & H2 & H3).
  pose proof (split_columns_signed (normal_balance account) bal) as H4.
  destruct (split_columns (normal_balance account) bal) as [d k].
  destruct H as [<-|[]]. exists account.
  cbn [tb_account_code tb_debit tb_credit fst snd] in *.
  repeat split; assumption.
Qed.

Lemma get_trial_balance_rows_witness :
  exists row account,
    In row (get_trial_balance trading_store (Some 30%Z))
    /\ In account (get_all_accounts trading_store)
    /\ tb_account_code row = account_code account
    /\ 0 <= tb_debit row.
Proof.
  assert (H : In (mkTrialBalanceRow "1-1000" "Kas" 600 0)
                 (get_trial_balance trading_store (Some 30%Z)))
    by (vm_compute; left; reflexivity).
  destruct (get_trial_balance_rows trading_store (Some 30%Z) _ H)
    as (account & Hacc & Hcode & Hd & _).
  exists (mkTrialBalanceRow "1-1000" "Kas" 600 0), account.
  repeat split; assumption.
Defined.



(** *** Net income on the worksheet and on the income statement *)





(** *** Depreciation *)

Lemma py_div_some (x y : Q) :
  ~ y == 0 -> py_div x y = Some (x / y).
Proof.
  intros H. unfold py_div. destruct (Qeq_bool y 0) eqn:E; [|reflexivity].
  apply Qeq_bool_eq in E. contradiction.
Qed.

Lemma py_div_none (x y : Q) :
  py_div x y = None <-> y == 0.
Proof.
  unfold py_div. destruct (Qeq_bool y 0) eqn:E.
  - apply Qeq_bool_eq in E. split; [intros _; exact E | reflexivity].
  - split; [discriminate|]. intros H. apply Qeq_eq_bool in H. congruence.
Qed.

Lemma inject_Z_zero (z : Z) : inject_Z z == 0 <-> z = 0%Z.
Proof.
  unfold Qeq, inject_Z. cbn. lia.
Qed.

Lemma sum_of_years_zero (n : Z) :
  inject_Z (n * (n + 1)) / 2 == 0 <-> (n = 0 \/ n = -1)%Z.
Proof.
  split.
  - intros H.
    assert (H' : inject_Z (n * (n + 1)) == 0).
    { setoid_replace (inject_Z (n * (n + 1)))
        with (inject_Z (n * (n + 1)) / 2 * 2) by field.
      rewrite H. ring. }
    apply (proj1 (inject_Z_zero _)) in H'.
    apply Z.mul_eq_0 in H'. lia.
  - intros [->| ->]; reflexivity.
Qed.

(** X16: [calculate_depreciation] raises a division by zero exactly when
    the useful life is 0 under the straight-line or the declining-balance
    method, or the useful life is 0 or -1 under the sum-of-years method
    and the year of the period does not exceed it; in every other case it
    returns an amount. *)
Theorem calculate_depreciation_raises (asset : Asset) (period : Z)
    (period_type : string) :
  calculate_depreciation asset period period_type = None
  <-> ((depreciation_method asset = "straight_line"
        \/ depreciation_method asset = "declining_balance")
       /\ useful_life asset = 0%Z)
      \/ (depreciation_method asset = "sum_of_years"
          /\ (useful_life asset = 0 \/ useful_life asset = -1)%Z
          /\ (year_of period_type period <= useful_life asset)%Z).
Proof.
  unfold calculate_depreciation, year_of. cbv zeta.
  destruct (String.eqb_spec (depreciation_method asset) "straight_line")
    as [Hm|Hm].
  { rewrite Hm.
    destruct (py_div _ (inject_Z (useful_life asset))) eqn:E.
    - assert (Hn : useful_life asset <> 0%Z).
      { intros H0. rewrite H0 in E. discriminate. }
      split.
      + destruct (String.eqb period_type "monthly"); discriminate.
      + intros [[_ H]|[H _]]; [contradiction | discriminate].
    - apply py_div_none in E. apply (proj1 (inject_Z_zero _)) in E.
      split; [intros _; left; split; [left; reflexivity | exact E]
             | reflexivity]. }
  destruct (String.eqb_spec (depreciation_method asset) "declining_balance")
    as [Hd|Hd].
  { rewrite Hd.
    destruct (py_div 2 (inject_Z (useful_life asset))) eqn:E.
    - assert (Hn : useful_life asset <> 0%Z).
      { intros H0. rewrite H0 in E. discriminate. }
      split.
      + destruct (String.eqb period_type "monthly"); discriminate.
      + intros [[_ H]|[H _]]; [contradiction | discriminate].
    - apply py_div_none in E. apply (proj1 (inject_Z_zero _)) in E.
      split; [intros _; left; split; [right; reflexivity | exact E]
             | reflexivity]. }
  destruct (String.eqb_spec (depreciation_method asset) "sum_of_years")
    as [Hs|Hs].
  { set (year := if String.eqb period_type "monthly"
                 then ((period - 1) / 12 + 1)%Z else period).
    assert (Hcase :
      (if (year <=? useful_life asset)%Z
       then match py_div (inject_Z (useful_life asset - year + 1))
                    (inject_Z (useful_life asset * (useful_life asset + 1))
                     / 2) with
            | None => None
            | Some share => Some share
            end
       else Some 0) = None
      <-> (useful_life asset = 0 \/ useful_life asset = -1)%Z
          /\ (year <= useful_life asset)%Z).
    { destruct (Z.leb_spec year (useful_life asset)) as [Hle|Hgt].
      - destruct (py_div _ _) eqn:E.
        + split; [discriminate|]. intros [H _].
          apply sum_of_years_zero, (py_div_none
            (inject_Z (useful_life asset - year + 1))) in H. congruence.
        + apply py_div_none, sum_of_years_zero in E.
          split; [intros _; split; assumption | reflexivity].
      - split; [discriminate | lia]. }
    assert (Hgoal :
      (if String.eqb period_type "monthly"
       then if (((period - 1) / 12 + 1) <=? useful_life asset)%Z
            then match py_div
                         (inject_Z (useful_life asset
                                    - ((period - 1) / 12 + 1) + 1))
                         (inject_Z (useful_life asset
                                    * (useful_life asset + 1)) / 2) with
                 | None => None
                 | Some share =>
                     Some (share * (cost asset - salvage_value asset) / 12)
                 end
            else Some 0
       else if (period <=? useful_life asset)%Z
            then match py_div (inject_Z (useful_life asset - period + 1))
                         (inject_Z (useful_life asset
                                    * (useful_life asset + 1)) / 2) with
                 | None => None
                 | Some share =>
                     Some (share * (cost asset - salvage_value asset))
                 end
            else Some 0) = None
      <-> (if (year <=? useful_life asset)%Z
           then match py_div (inject_Z (useful_life asset - year + 1))
                        (inject_Z (useful_life asset
                                   * (useful_life asset + 1)) / 2) with
                | None => None
                | Some share => Some share
                end
           else Some 0) = None).
    { unfold year.
      destruct (String.eqb period_type "monthly");
        destruct (_ <=? _)%Z; try reflexivity;
        destruct (py_div _ _); split; congruence. }
    rewrite Hgoal, Hcase. split.
    - intros H. right. split; [exact Hs | exact H].
    - intros [[[H|H] _]|[_ H]]; [congruence | congruence | exact H]. }
  split; [discriminate|].
  intros [[[H|H] _]|[H _]]; contradiction.
Qed.

Lemma total_constant {A : Type} (f : A -> Q) (c : Q) (l : list A) :
  (forall x, In x l -> f x == c) ->
  total f l == c * inject_Z (Z.of_nat (length l)).
Proof.
  induction l as [|x l IH]; intros H.
  - cbn. ring.
  - cbn [total length]. rewrite (H x (or_introl eq_refl)), IH.
    + rewrite Nat2Z.inj_succ. unfold Z.succ. rewrite inject_Z_plus. ring.
    + intros y Hy. apply H. right. exact Hy.
Qed.

Lemma all_returned {A : Type} (f : A -> option Q) (l : list A) :
  (forall x, In x l -> f x <> None) ->
  map f l = map Some (map (fun x => amount_or_zero (f x)) l).
Proof.
  intros H. rewrite map_map. apply map_ext_in. intros x Hx.
  specialize (H x Hx). destruct (f x); [reflexivity | contradiction].
Qed.

Lemma year_of_block (period_type : string) (j i : nat) :
  In i (seq (1 + periods_per_year period_type * j)
            (periods_per_year period_type)) ->
  year_of period_type (Z.of_nat i) = Z.of_nat (S j).
Proof.
  rewrite in_seq. unfold year_of, periods_per_year.
  destruct (String.eqb period_type "monthly"); intros H; [|lia].
  assert (Hq : ((Z.of_nat i - 1) / 12 = Z.of_nat j)%Z).
  { symmetry.
    apply (Z.div_unique _ _ _ (Z.of_nat i - 1 - 12 * Z.of_nat j)); lia. }
  rewrite Hq. lia.
Qed.

Lemma calculate_depreciation_charge (asset : Asset) (period : Z)
    (period_type : string) :
  (0 < useful_life asset)%Z ->
  depreciation_method asset = "straight_line"
  \/ depreciation_method asset = "sum_of_years" ->
  (year_of period_type period <= useful_life asset)%Z ->
  exists d,
    calculate_depreciation asset period period_type = Some d
    /\ d == annual_charge asset (year_of period_type period)
            / inject_Z (Z.of_nat (periods_per_year period_type)).
Proof.
  intros Hn Hm Hy.
  assert (Hn0 : ~ inject_Z (useful_life asset) == 0).
  { intros H. apply (proj1 (inject_Z_zero _)) in H. lia. }
  assert (Hs0 : ~ inject_Z (useful_life asset * (useful_life asset + 1)) / 2
                  == 0).
  { intros H. apply sum_of_years_zero in H. lia. }
  unfold calculate_depreciation, annual_charge, year_of, periods_per_year
    in *.
  cbv zeta. destruct Hm as [Hm|Hm]; rewrite Hm; cbn [String.eqb Ascii.eqb Bool.eqb].
  - rewrite py_div_some by exact Hn0.
    destruct (String.eqb period_type "monthly");
      eexists; (split; [reflexivity|]).
    + change (inject_Z (Z.of_nat 12)) with 12. reflexivity.
    + change (inject_Z (Z.of_nat 1)) with 1. field. exact Hn0.
  - destruct (String.eqb period_type "monthly").
    + apply Z.leb_le in Hy. rewrite Hy.
      rewrite py_div_some by exact Hs0.
      eexists; (split; [reflexivity|]).
      change (inject_Z (Z.of_nat 12)) with 12. reflexivity.
    + apply Z.leb_le in Hy. rewrite Hy.
      rewrite py_div_some by exact Hs0.
      eexists; (split; [reflexivity|]).
      change (inject_Z (Z.of_nat 1)) with 1. field.
      intros H. apply Hs0. rewrite H. reflexivity.
Qed.

Lemma charged_after_step (asset : Asset) (j : nat) :
  (0 < useful_life asset)%Z ->
  charged_after asset (Z.of_nat j) + annual_charge asset (Z.of_nat (S j))
  == charged_after asset (Z.of_nat (S j)).
Proof.
  intros Hn.
  assert (Hn0 : ~ inject_Z (useful_life asset) == 0).
  { intros H. apply (proj1 (inject_Z_zero _)) in H. lia. }
  assert (Hn1 : ~ inject_Z (useful_life asset) + 1 == 0).
  { intros H. change 1 with (inject_Z 1) in H.
    rewrite <- inject_Z_plus in H.
    apply (proj1 (inject_Z_zero _)) in H. lia. }
  unfold charged_after, annual_charge.
  rewrite Nat2Z.inj_succ. unfold Z.succ, Z.sub.
  destruct (String.eqb (depreciation_method asset) "straight_line").
  - rewrite inject_Z_plus. change (inject_Z 1) with 1. field. exact Hn0.
  - rewrite ?inject_Z_mult, ?inject_Z_plus, ?inject_Z_opp, ?inject_Z_mult,
      ?inject_Z_plus.
    change (inject_Z 1) with 1. change (inject_Z 2) with 2.
    field. split; assumption.
Qed.

Lemma schedule_charged (asset : Asset) (period_type : string) (j : nat) :
  (0 < useful_life asset)%Z ->
  depreciation_method asset = "straight_line"
  \/ depreciation_method asset = "sum_of_years" ->
  (Z.of_nat j <= useful_life asset)%Z ->
  (forall i, In i (seq 1 (periods_per_year period_type * j)) ->
             calculate_depreciation asset (Z.of_nat i) period_type <> None)
  /\ total (fun i => amount_or_zero
                       (calculate_depreciation asset (Z.of_nat i)
                                               period_type))
           (seq 1 (periods_per_year period_type * j))
     == charged_after asset (Z.of_nat j).
Proof.
  intros Hn Hm. induction j as [|j IH]; intros Hj.
  - rewrite Nat.mul_0_r. split; [intros i []|].
    cbn [seq total]. unfold charged_after.
    destruct (String.eqb _ _); cbn [Z.of_nat]; unfold Qdiv;
      rewrite ?Z.mul_0_l; change (inject_Z 0) with 0; ring.
  - destruct IH as [IHs IHt]; [lia|].
    replace (periods_per_year period_type * S j)%nat
      with (periods_per_year period_type * j
            + periods_per_year period_type)%nat by lia.
    rewrite seq_app.
    assert (Hblock : forall i,
              In i (seq (1 + periods_per_year period_type * j)
                        (periods_per_year period_type)) ->
              exists d,
                calculate_depreciation asset (Z.of_nat i) period_type
                = Some d
                /\ d == annual_charge asset (Z.of_nat (S j))
                        / inject_Z (Z.of_nat
                                      (periods_per_year period_type))).
    { intros i Hi. pose proof (year_of_block _ _ _ Hi) as Hy.
      rewrite <- Hy. apply calculate_depreciation_charge; [assumption..|].
      rewrite Hy. exact Hj. }
    split.
    + intros i Hi. apply in_app_or in Hi. destruct Hi as [Hi|Hi].
      * apply IHs. exact Hi.
      * destruct (Hblock i Hi) as (d & Hd & _). congruence.
    + rewrite total_app, IHt, <- charged_after_step by exact Hn.
      apply Qplus_comp; [reflexivity|].
      rewrite (total_constant _
                 (annual_charge asset (Z.of_nat (S j))
                  / inject_Z (Z.of_nat (periods_per_year period_type)))).
      * rewrite length_seq. field. unfold periods_per_year.
        destruct (String.eqb period_type "monthly"); discriminate.
      * intros i Hi. destruct (Hblock i Hi) as (d & Hd & Hv).
        rewrite Hd. exact Hv.
Qed.

(** X17: under the straight-line and the sum-of-years method an asset
    with a positive useful life is written off exactly: the amounts of the
    periods 1 up to the end of its useful life (one per year, or twelve
    per year for monthly periods) are all returned and add up to cost
    minus salvage value. *)
Theorem calculate_depreciation_writes_off (asset : Asset)
    (period_type : string) :
  (0 < useful_life asset)%Z ->
  depreciation_method asset = "straight_line"
  \/ depreciation_method asset = "sum_of_years" ->
  exists amounts,
    depreciation_schedule asset period_type
      (periods_per_year period_type * Z.to_nat (useful_life asset))
    = map Some amounts
    /\ sum amounts == cost asset - salvage_value asset.
Proof.
  intros Hn Hm.
  destruct (schedule_charged asset period_type
              (Z.to_nat (useful_life asset)) Hn Hm) as [Hs Ht]; [lia|].
  eexists. split.
  - unfold depreciation_schedule. apply all_returned. exact Hs.
  - rewrite <- (map_id (map _ _)), sum_map_total, total_map, Ht.
    rewrite Z2Nat.id by lia. unfold charged_after.
    assert (Hn0 : ~ inject_Z (useful_life asset) == 0).
    { intros H. apply (proj1 (inject_Z_zero _)) in H. lia. }
    assert (Hn1 : ~ inject_Z (useful_life asset) + 1 == 0).
    { intros H. change 1 with (inject_Z 1) in H.
      rewrite <- inject_Z_plus in H.
      apply (proj1 (inject_Z_zero _)) in H. lia. }
    destruct (String.eqb (depreciation_method asset) "straight_line").
    + field. exact Hn0.
    + replace (2 * useful_life asset - useful_life asset + 1)%Z
        with (useful_life asset + 1)%Z by lia.
      rewrite !inject_Z_mult, inject_Z_plus. change (inject_Z 1) with 1.
      field. split; assumption.
Qed.

Lemma calculate_depreciation_writes_off_witness :
  exists amounts,
    depreciation_schedule (example_asset "sum_of_years") "annual" 3
    = map Some amounts
    /\ sum amounts == 900.
Proof.
  destruct (calculate_depreciation_writes_off
              (example_asset "sum_of_years") "annual")
    as (amounts & Hs & Ht).
  - cbn. lia.
  - right. reflexivity.
  - exists amounts. split; [exact Hs|]. rewrite Ht. reflexivity.
Defined.









(** *** Editing the inventory card *)

Lemma recalculate_chains (rows : list InventoryRow) :
  NoDup (map inv_id rows) ->
  chained 0 0
    (chronological (recalculate_loop (chronological rows) 0 0 rows)).
Proof.
  intros Hnd. rewrite recalculate_chronological.
  apply chained_row_after.
  eapply Permutation_NoDup; [|exact Hnd].
  apply Permutation_map. symmetry. apply order_by_perm.
Qed.

Lemma recalculate_movements (entries rows : list InventoryRow) (q a : Q) :
  map movement_of (recalculate_loop entries q a rows)
  = map movement_of rows.
Proof.
  rewrite recalculate_loop_map, map_map. apply map_ext.
  intros r. apply movement_of_row_after.
Qed.

Lemma ids_without (card_id : Z) (rows : list InventoryRow) :
  map inv_id (filter (fun r => negb (inv_id r =? card_id)%Z) rows)
  = filter (fun i => negb (i =? card_id)%Z) (map inv_id rows).
Proof.
  induction rows as [|r rows IH]; [reflexivity|].
  cbn [filter map]. destruct (inv_id r =? card_id)%Z; cbn [negb map].
  - exact IH.
  - rewrite IH. reflexivity.
Qed.

(** X19: [delete_inventory_card] removes the rows with the given id and
    nothing else, leaves the movements of the other rows and their order
    in the table as they were, and, when the ids of the card are unique,
    leaves the card with its running balances chained from zero in the
    order of date and id. *)
Theorem delete_inventory_card_rechains (db : Store) (card_id : Z) :
  NoDup (map inv_id (inventory_card db)) ->
  let db' := fst (delete_inventory_card db card_id) in
  snd (delete_inventory_card db card_id) = true
  /\ map movement_of (inventory_card db')
     = map movement_of
         (filter (fun r => negb (inv_id r =? card_id)%Z)
                 (inventory_card db))
  /\ (forall r, In r (inventory_card db') -> inv_id r <> card_id)
  /\ chained 0 0 (chronological (inventory_card db'))
  /\ accounts db' = accounts db
  /\ journal_entries db' = journal_entries db.
Proof.
  intros Hnd. cbv zeta.
  unfold delete_inventory_card, recalculate_inventory_balances.
  cbn [fst snd inventory_card accounts journal_entries].
  set (rest := filter (fun r => negb (inv_id r =? card_id)%Z)
                      (inventory_card db)).
  assert (Hm : map movement_of
                 (recalculate_loop (order_by by_date_then_id rest) 0 0 rest)
               = map movement_of rest)
    by apply recalculate_movements.
  split; [reflexivity|]. split; [exact Hm|]. split; [|split].
  - intros r Hr Hid.
    apply (in_map movement_of) in Hr. rewrite Hm in Hr.
    apply in_map_iff in Hr. destruct Hr as (r' & Hr' & Hin).
    apply filter_In in Hin. destruct Hin as [_ Hne].
    destruct (movement_of_fields _ _ Hr') as (Hid' & _).
    rewrite Hid', Hid, Z.eqb_refl in Hne. discriminate.
  - apply recalculate_chains. unfold rest. rewrite ids_without.
    apply NoDup_filter. exact Hnd.
  - split; reflexivity.
Qed.

Lemma delete_inventory_card_rechains_witness :
  NoDup (map inv_id (inventory_card stocked_store))
  /\ chained 0 0
       (chronological
          (inventory_card (fst (delete_inventory_card stocked_store 1)))).
Proof.
  assert (H : NoDup (map inv_id (inventory_card stocked_store)))
    by (vm_compute; repeat constructor; cbn; intuition discriminate).
  split; [exact H|].
  apply (delete_inventory_card_rechains stocked_store 1 H).
Defined.

(** The row [update_inventory_entry] writes for the row it was pointed
    at, before the balances are recalculated. *)
Lemma update_inventory_entry_cases (db : Store) (card_id : Z)
    (new_purchase_unit_price new_sales_unit_price : option Q)
    (entry : InventoryRow) :
  filter (fun r => (inv_id r =? card_id)%Z) (inventory_card db) = [entry] ->
  forall patch,
    match new_purchase_unit_price, new_sales_unit_price with
    | Some new_price, _ =>
        Some (fun r => set_purchase_price
                         r new_price (purchase_quantity entry * new_price))
    | None, Some new_price =>
        Some (fun r => set_sales_price
                         r new_price (sales_quantity entry * new_price))
    | None, None => None
    end = Some patch ->
    update_inventory_entry db card_id new_purchase_unit_price
                           new_sales_unit_price
    = (mkStore (accounts db) (journal_entries db) (sales db) (purchases db)
         (let rows := map (fun r => if (inv_id r =? card_id)%Z
                                    then patch r else r)
                          (inventory_card db) in
          recalculate_loop (order_by by_date_then_id rows) 0 0 rows),
       true).
Proof.
  intros Hone patch Hpatch. unfold update_inventory_entry.
  rewrite Hone. cbv zeta. rewrite Hpatch. reflexivity.
Qed.

(** X20: [update_inventory_entry] changes nothing and reports failure
    unless exactly one row has the given id; with neither price in the
    form it changes nothing, without a recalculation, and reports
    success.  Otherwise, on a card with unique ids, it reports success,
    rewrites in that row the purchase price and the purchase amount as
    quantity times price (or the sales price and amount when no purchase
    price is given), leaves every other movement as it was, and leaves
    the running balances chained from zero in the order of date and
    id. *)
Theorem update_inventory_entry_effect (db : Store) (card_id : Z)
    (new_purchase_unit_price new_sales_unit_price : option Q) :
  NoDup (map inv_id (inventory_card db)) ->
  let result := update_inventory_entry db card_id new_purchase_unit_price
                                       new_sales_unit_price in
  match filter (fun r => (inv_id r =? card_id)%Z) (inventory_card db),
        new_purchase_unit_price, new_sales_unit_price with
  | [entry], Some new_price, _ =>
      snd result = true
      /\ map movement_of (inventory_card (fst result))
         = map (fun r => movement_of
                           (if (inv_id r =? card_id)%Z
                            then set_purchase_price
                                   r new_price
                                   (purchase_quantity r * new_price)
                            else r))
               (inventory_card db)
      /\ chained 0 0 (chronological (inventory_card (fst result)))
  | [entry], None, Some new_price =>
      snd result = true
      /\ map movement_of (inventory_card (fst result))
         = map (fun r => movement_of
                           (if (inv_id r =? card_id)%Z
                            then set_sales_price
                                   r new_price
                                   (sales_quantity r * new_price)
                            else r))
               (inventory_card db)
      /\ chained 0 0 (chronological (inventory_card (fst result)))
  | [entry], None, None => result = (db, true)
  | _, _, _ => result = (db, false)
  end.
Proof.
  intros Hnd. cbv zeta.
  destruct (filter (fun r => (inv_id r =? card_id)%Z) (inventory_card db))
    as [|entry [|other rest]] eqn:Hone.
  - unfold update_inventory_entry. rewrite Hone.
    destruct new_purchase_unit_price, new_sales_unit_price; reflexivity.
  - assert (Hentry : forall r, In r (inventory_card db) ->
                       (inv_id r =? card_id)%Z = true -> r = entry).
    { intros r Hr Hid.
      assert (Hin : In r [entry])
        by (rewrite <- Hone; apply filter_In; split; assumption).
      destruct Hin as [->|[]]. reflexivity. }
    assert (Hids : forall patch : InventoryRow -> InventoryRow,
              (forall r, inv_id (patch r) = inv_id r) ->
              NoDup (map inv_id
                       (map (fun r => if (inv_id r =? card_id)%Z
                                      then patch r else r)
                            (inventory_card db)))).
    { intros patch Hp. rewrite map_map.
      rewrite (map_ext _ inv_id); [exact Hnd|].
      intros r. destruct (inv_id r =? card_id)%Z; [apply Hp|reflexivity]. }
    destruct new_purchase_unit_price as [price|];
      [|destruct new_sales_unit_price as [price|]].
    + rewrite (update_inventory_entry_cases db card_id (Some price)
                 new_sales_unit_price entry Hone _ eq_refl).
      cbn [fst snd inventory_card]. cbv zeta.
      split; [reflexivity|]. split.
      * rewrite recalculate_movements, map_map.
        apply map_ext_in. intros r Hr.
        destruct (inv_id r =? card_id)%Z eqn:Hid; [|reflexivity].
        rewrite (Hentry r Hr Hid). reflexivity.
      * apply recalculate_chains. apply Hids. reflexivity.
    + rewrite (update_inventory_entry_cases db card_id None (Some price)
                 entry Hone _ eq_refl).
      cbn [fst snd inventory_card]. cbv zeta.
      split; [reflexivity|]. split.
      * rewrite recalculate_movements, map_map.
        apply map_ext_in. intros r Hr.
        destruct (inv_id r =? card_id)%Z eqn:Hid; [|reflexivity].
        rewrite (Hentry r Hr Hid). reflexivity.
      * apply recalculate_chains. apply Hids. reflexivity.
    + unfold update_inventory_entry. rewrite Hone. reflexivity.
  - unfold update_inventory_entry. rewrite Hone.
    destruct new_purchase_unit_price, new_sales_unit_price; reflexivity.
Qed.

Lemma update_inventory_entry_effect_witness :
  NoDup (map inv_id (inventory_card stocked_store))
  /\ snd (update_inventory_entry stocked_store 1 (Some 1200) None) = true
  /\ chained 0 0
       (chronological
          (inventory_card
             (fst (update_inventory_entry stocked_store 1 (Some 1200)
                                          None)))).
Proof.
  assert (H : NoDup (map inv_id (inventory_card stocked_store)))
    by (vm_compute; repeat constructor; cbn; intuition discriminate).
  split; [exact H|].
  pose proof (update_inventory_entry_effect stocked_store 1 (Some 1200)
                None H) as (Hs & _ & Hc).
  split; [exact Hs | exact Hc].
Defined.

(** *** The chart of accounts *)

Lemma order_by_snoc {A : Type} (le : A -> A -> bool) (l : list A) (x : A) :
  order_by le (l ++ [x]) = insert_sorted le x (order_by le l).
Proof.
  unfold order_by. rewrite fold_left_app. reflexivity.
Qed.

Lemma find_insert_sorted {A : Type} (le : A -> A -> bool) (p : A -> bool)
    (x : A) (l : list A) :
  p x = false -> find p (insert_sorted le x l) = find p l.
Proof.
  intros Hx. induction l as [|y l IH]; cbn [insert_sorted find].
  - rewrite Hx. reflexivity.
  - destruct (le y x); cbn [find]; [rewrite IH | rewrite Hx]; reflexivity.
Qed.

Lemma registered_accounts (db : Store) (code : string) :
  existsb (fun a => String.eqb (account_code a) code) (accounts db) = true
  <-> registered db code.
Proof.
  unfold registered, get_all_accounts. rewrite existsb_exists. split.
  - intros (a & Ha & E). exists a. rewrite order_by_in.
    split; [exact Ha | apply String.eqb_eq, E].
  - intros (a & Ha & E). exists a. rewrite order_by_in in Ha.
    split; [exact Ha | apply String.eqb_eq, E].
Qed.

(** X21: [create_account] refuses, leaving the store as it was, exactly
    when the code or the name is empty or the code is already registered.
    Otherwise it registers the account and nothing else: the codes of the
    registry stay unique, the journal is untouched, the new account
    starts at its beginning balance when no journal line carries its
    code yet, and the ledger balance of every other code is what it
    was. *)
Theorem create_account_keeps_registry (db : Store)
    (code name type normal_bal : string) (beginning_bal : Q) :
  unique_codes db ->
  let r := create_account db code name type normal_bal beginning_bal in
  (snd r = None <-> code = "" \/ name = "" \/ registered db code)
  /\ (snd r = None -> fst r = db)
  /\ unique_codes (fst r)
  /\ (forall acc, snd r = Some acc ->
        acc = mkAccount code name type normal_bal beginning_bal
        /\ (forall a, In a (get_all_accounts (fst r))
                      <-> a = acc \/ In a (get_all_accounts db))
        /\ journal_entries (fst r) = journal_entries db
        /\ ((forall e, In e (journal_entries db) ->
                       je_account_code e <> code) ->
            forall d t, get_ledger_balance (fst r) code d t
                        == beginning_bal))
  /\ (forall c d t, c <> code ->
        get_ledger_balance (fst r) c d t = get_ledger_balance db c d t).
Proof.
  intros Hnd. cbv zeta. unfold create_account.
  destruct (String.eqb_spec code "") as [Hc|Hc]; cbn [orb].
  { cbn [fst snd]. repeat split; try (intros; auto; discriminate); auto. }
  destruct (String.eqb_spec name "") as [Hn|Hn]; cbn [orb].
  { cbn [fst snd]. repeat split; try (intros; auto; discriminate); auto. }
  destruct (existsb _ (accounts db)) eqn:Hex.
  { apply registered_accounts in Hex. cbn [fst snd].
    repeat split; try (intros; auto; discriminate); auto. }
  assert (Hnew : ~ registered db code).
  { intros H. apply registered_accounts in H. congruence. }
  cbn [fst snd].
  set (data := mkAccount code name type normal_bal beginning_bal).
  set (db' := mkStore _ _ _ _ _).
  assert (Hall : get_all_accounts db'
                 = insert_sorted
                     (fun a b => String.leb (account_code a)
                                            (account_code b))
                     data (get_all_accounts db)).
  { unfold get_all_accounts, db'. cbn [accounts]. apply order_by_snoc. }
  assert (Hin : forall a, In a (get_all_accounts db')
                          <-> a = data \/ In a (get_all_accounts db)).
  { intros a. rewrite Hall, insert_sorted_in. reflexivity. }
  assert (Hnd' : unique_codes db').
  { unfold unique_codes. rewrite Hall.
    eapply Permutation_NoDup.
    - apply Permutation_map. symmetry. apply insert_sorted_perm.
    - cbn [map]. constructor; [|exact Hnd].
      intros H. apply in_map_iff in H. destruct H as (a & Ha & Hina).
      apply Hnew. exists a. split; assumption. }
  split; [|split; [|split; [|split]]].
  - split; [discriminate|].
    intros [H|[H|H]]; contradiction.
  - discriminate.
  - exact Hnd'.
  - intros acc Hacc. injection Hacc as <-.
    split; [reflexivity|]. split; [exact Hin|]. split; [reflexivity|].
    intros Hfree d t.
    assert (Hd : In data (get_all_accounts db'))
      by (apply Hin; left; reflexivity).
    unfold get_ledger_balance.
    change code with (account_code data) at 1.
    rewrite (find_account_in _ data Hnd' Hd). cbv zeta.
    assert (Hnone : filter
              (fun e => String.eqb (je_account_code e) code
                        && date_filter d (je_date e)
                        && type_filter t (je_journal_type e))
              (journal_entries db') = []).
    { apply filter_none. intros e He. unfold db' in He.
      cbn [journal_entries] in He.
      destruct (String.eqb_spec (je_account_code e) code) as [E|E];
        [exact (False_ind _ (Hfree e He E)) | reflexivity]. }
    rewrite Hnone. cbn [map]. change (sum []) with 0.
    destruct (String.eqb (normal_balance data) "debit");
      cbn [beginning_balance data]; ring.
  - intros c d t Hne. unfold get_ledger_balance. rewrite Hall.
    rewrite find_insert_sorted.
    + reflexivity.
    + cbn [account_code data]. apply String.eqb_neq. congruence.
Qed.

Lemma create_account_keeps_registry_witness :
  unique_codes fresh_store
  /\ snd (create_account fresh_store "1-1500" "Persediaan Pakan" "aset"
                         "debit" 0) <> None
  /\ unique_codes
       (fst (create_account fresh_store "1-1500" "Persediaan Pakan" "aset"
                            "debit" 0)).
Proof.
  assert (H : unique_codes fresh_store) by distinct_codes.
  split; [exact H|]. split; [discriminate|].
  apply (create_account_keeps_registry fresh_store "1-1500"
           "Persediaan Pakan" "aset" "debit" 0 H).
Defined.

(** *** Cashier sales *)

Lemma stock_check (db : Store) (items : list CartItem) :
  existsb (fun item => Qltb (current_stock db (cart_name item))
                            (cart_quantity item)) items = false
  <-> stock_covers db items.
Proof.
  unfold stock_covers. split.
  - intros H item Hin.
    destruct (Qltb (current_stock db (cart_name item)) (cart_quantity item))
      eqn:E.
    + assert (Hex : existsb
                (fun item => Qltb (current_stock db (cart_name item))
                                  (cart_quantity item)) items = true)
        by (apply existsb_exists; exists item; split; assumption).
      congruence.
    + apply Qltb_false in E. exact E.
  - intros H.
    destruct (existsb _ items) eqn:E; [|reflexivity].
    apply existsb_exists in E. destruct E as (item & Hin & Hlt).
    apply Qltb_true in Hlt. specialize (H item Hin). lra.
Qed.

Lemma post_items_keeps (date : Z) (code cashier : string)
    (items : list CartItem) :
  forall (db : Store) (hpp : Q),
    let r := post_items db date code cashier items hpp in
    journal_entries (fst r) = journal_entries db
    /\ accounts (fst r) = accounts db
    /\ sales (fst r) = sales db
    /\ purchases (fst r) = purchases db.
Proof.
  induction items as [|item rest IH]; intros db hpp; cbv zeta.
  - cbn. repeat split.
  - cbn [post_items].
    destruct (get_last_inventory_entry db (cart_name item)) as [last|].
    + cbv zeta.
      match goal with
      | |- context [post_items ?d _ _ _ _ ?h] =>
          specialize (IH d h); cbv zeta in IH; exact IH
      end.
    + cbn. repeat split.
Qed.

(** X22: [create_transaction] checks the stock of every line of the cart
    before it writes anything: it refuses with a stock error exactly when
    some line asks for more than the card holds of its product, and then
    neither the store nor the transactions table has changed.  A stored
    transaction adds one row to the transactions table and four journal
    lines under the transaction code, cash against revenue for the total
    and cost of goods against inventory for the cost, so that debits and
    credits agree. *)
Theorem create_transaction_checks_first (db : Store)
    (transactions : list TransactionRow) (date : Z) (code : string)
    (items : list CartItem) (total_amount : Q) (cashier : string) :
  let r := create_transaction db transactions date code items total_amount
                              cashier in
  (snd r = StockShort <-> ~ stock_covers db items)
  /\ (snd r = StockShort -> fst r = (db, transactions))
  /\ (snd r = TransactionStored ->
      exists total_hpp l1 l2 l3 l4,
        snd (fst r)
        = (transactions
           ++ [mkTransactionRow code date items total_amount "cash"
                                cashier])%list
        /\ journal_entries (fst (fst r))
           = (journal_entries db ++ [l1; l2; l3; l4])%list
        /\ map (fun l => (je_account_code l, je_debit l, je_credit l))
               [l1; l2; l3; l4]
           = [("1-1000", total_amount, 0); ("4-1000", 0, total_amount);
              ("5-1000", total_hpp, 0); ("1-1200", 0, total_hpp)]
        /\ (forall l, In l [l1; l2; l3; l4] ->
              je_ref_code l = code /\ je_journal_type l = "GJ")
        /\ total je_debit [l1; l2; l3; l4]
           == total je_credit [l1; l2; l3; l4]).
Proof.
  cbv zeta. unfold create_transaction.
  pose proof (stock_check db items) as Hcheck.
  destruct (existsb _ items) eqn:Hshort.
  - cbn [fst snd]. split; [|split].
    + split; [|reflexivity]. intros _ Hc. apply Hcheck in Hc. discriminate.
    + reflexivity.
    + discriminate.
  - pose proof (post_items_keeps date code cashier items db 0) as Hkeep.
    cbv zeta in Hkeep. destruct Hkeep as (Hj & _).
    destruct (post_items db date code cashier items 0) as [db1 [hpp|]];
      cbn [fst snd] in *.
    + split; [|split].
      * split; [discriminate|]. intros Hn. exfalso. apply Hn, Hcheck.
        reflexivity.
      * discriminate.
      * intros _. rewrite !journal_entries_insert. rewrite Hj.
        rewrite <- !app_assoc. cbn [app].
        exists hpp. do 4 eexists.
        split; [reflexivity|]. split; [reflexivity|].
        split; [reflexivity|]. split.
        { intros l Hl. cbn [In] in Hl.
          destruct Hl as [<-|[<-|[<-|[<-|[]]]]]; split; reflexivity. }
        cbn [total je_debit je_credit]. ring.
    + split; [|split].
      * split; [discriminate|]. intros Hn. exfalso. apply Hn, Hcheck.
        reflexivity.
      * discriminate.
      * discriminate.
Qed.

Lemma fold_max_bounds {A : Type} (id : A -> Z) (rows : list A) :
  forall m : Z,
    (m <= fold_left (fun m r => Z.max m (id r)) rows m)%Z
    /\ forall r, In r rows ->
         (id r <= fold_left (fun m r => Z.max m (id r)) rows m)%Z.
Proof.
  induction rows as [|x rows IH]; intros m; cbn [fold_left].
  - split; [lia | intros r []].
  - destruct (IH (Z.max m (id x))) as [Hm Hr]. split; [lia|].
    intros r [->|Hin]; [lia | apply Hr, Hin].
Qed.

Lemma next_id_above {A : Type} (id : A -> Z) (rows : list A) (r : A) :
  In r rows -> (id r < next_id id rows)%Z.
Proof.
  intros Hin. unfold next_id.
  pose proof (proj2 (fold_max_bounds id rows 0%Z) r Hin). lia.
Qed.

Lemma insert_sorted_front {A : Type} (le : A -> A -> bool) (x : A)
    (l : list A) :
  (forall y, In y l -> le y x = false) -> insert_sorted le x l = x :: l.
Proof.
  intros H. destruct l as [|y l]; [reflexivity|].
  cbn [insert_sorted]. rewrite (H y (or_introl eq_refl)). reflexivity.
Qed.

(** A row appended under a fresh serial id is the last entry of its
    product and of no other. *)
Lemma get_last_after_insert (db : Store) (mk : Z -> InventoryRow)
    (product name : string) :
  (forall id, inv_id (mk id) = id) ->
  (forall id, inv_product_name (mk id) = product) ->
  get_last_inventory_entry (insert_inventory_row db mk) name
  = if String.eqb product name
    then Some (mk (next_id inv_id (inventory_card db)))
    else get_last_inventory_entry db name.
Proof.
  intros Hid Hprod. unfold get_last_inventory_entry, insert_inventory_row.
  cbn [inventory_card]. rewrite filter_app. cbn [filter].
  rewrite Hprod. destruct (String.eqb product name).
  - rewrite order_by_snoc, insert_sorted_front; [reflexivity|].
    intros y Hy. apply order_by_in, filter_In in Hy. destruct Hy as [Hy _].
    apply (next_id_above inv_id) in Hy. rewrite Hid.
    apply Z.leb_gt. exact Hy.
  - rewrite app_nil_r. reflexivity.
Qed.

Lemma post_items_distinct (date : Z) (code cashier : string)
    (items : list CartItem) :
  forall (db : Store) (hpp : Q),
    NoDup (map cart_name items) ->
    (forall item, In item items ->
       get_last_inventory_entry db (cart_name item) <> None) ->
    exists db' hpp',
      post_items db date code cashier items hpp = (db', Some hpp')
      /\ (forall item, In item items ->
            current_stock db' (cart_name item)
            = current_stock db (cart_name item) - cart_quantity item)
      /\ (forall name, ~ In name (map cart_name items) ->
            get_last_inventory_entry db' name
            = get_last_inventory_entry db name)
      /\ List.length (inventory_card db')
         = (List.length (inventory_card db) + List.length items)%nat.
Proof.
  induction items as [|item rest IH]; intros db hpp Hnd Hrows.
  - exists db, hpp. cbn [post_items]. split; [reflexivity|].
    split; [intros item []|]. split; [reflexivity|]. cbn. lia.
  - cbn [map] in Hnd. inversion Hnd as [|? ? Hout Hnd']; subst.
    cbn [post_items].
    destruct (get_last_inventory_entry db (cart_name item)) as [last|] eqn:El;
      [|exfalso; apply (Hrows item (or_introl eq_refl)); exact El].
    cbv zeta.
    set (mk := fun id : Z =>
                 mkInventoryRow id date code
                   ("Penjualan " ++ cart_quantity_text item ++ " kg "
                    ++ cart_name item)
                   (cart_name item) 0 0 0 (cart_quantity item)
                   (balance_unit_price last)
                   (cart_quantity item * balance_unit_price last)
                   (balance_quantity last - cart_quantity item)
                   (balance_unit_price last)
                   (balance_amount last
                    - cart_quantity item * balance_unit_price last)
                   cashier).
    assert (Hlast : forall name,
              get_last_inventory_entry (insert_inventory_row db mk) name
              = if String.eqb (cart_name item) name
                then Some (mk (next_id inv_id (inventory_card db)))
                else get_last_inventory_entry db name)
      by (intros name; apply get_last_after_insert; reflexivity).
    assert (Hother : forall name, name <> cart_name item ->
              get_last_inventory_entry (insert_inventory_row db mk) name
              = get_last_inventory_entry db name).
    { intros name Hne. rewrite Hlast.
      destruct (String.eqb_spec (cart_name item) name); congruence. }
    assert (Hrest : forall i, In i rest -> cart_name i <> cart_name item).
    { intros i Hi E. apply Hout. rewrite <- E. apply in_map, Hi. }
    destruct (IH (insert_inventory_row db mk)
                 (hpp + cart_quantity item * balance_unit_price last) Hnd')
      as (db' & hpp' & Hpost & Hstock & Hkeep & Hlen).
    { intros i Hi. rewrite Hother by (apply Hrest, Hi).
      apply Hrows. right. exact Hi. }
    exists db', hpp'. split; [exact Hpost|]. split; [|split].
    + intros i [<-|Hi].
      * unfold current_stock. rewrite (Hkeep _ Hout), Hlast, El.
        rewrite String.eqb_refl. reflexivity.
      * rewrite (Hstock i Hi). unfold current_stock.
        rewrite Hother by (apply Hrest, Hi). reflexivity.
    + intros name Hn. cbn [map In] in Hn.
      rewrite Hkeep by tauto. apply Hother. intros E. apply Hn. left.
      symmetry. exact E.
    + rewrite Hlen. unfold insert_inventory_row. cbn [inventory_card].
      rewrite length_app. cbn [List.length]. lia.
Qed.

(** X23: a cart of distinct products with positive quantities, none above
    the stock of its product, is always stored, with one new inventory
    row per line; afterwards the stock of every product of the cart is
    what it was less the quantity sold, and not negative, and the stock
    of every other product is what it was. *)
Theorem create_transaction_distinct_products (db : Store)
    (transactions : list TransactionRow) (date : Z) (code : string)
    (items : list CartItem) (total_amount : Q) (cashier : string) :
  NoDup (map cart_name items) ->
  (forall item, In item items -> 0 < cart_quantity item) ->
  stock_covers db items ->
  let r := create_transaction db transactions date code items total_amount
                              cashier in
  snd r = TransactionStored
  /\ (forall item, In item items ->
        current_stock (fst (fst r)) (cart_name item)
        = current_stock db (cart_name item) - cart_quantity item
        /\ 0 <= current_stock (fst (fst r)) (cart_name item))
  /\ (forall name, ~ In name (map cart_name items) ->
        current_stock (fst (fst r)) name = current_stock db name)
  /\ List.length (inventory_card (fst (fst r)))
     = (List.length (inventory_card db) + List.length items)%nat.
Proof.
  intros Hnd Hpos Hcover. cbv zeta. unfold create_transaction.
  rewrite (proj2 (stock_check db items) Hcover).
  destruct (post_items_distinct date code cashier items db 0 Hnd)
    as (db' & hpp' & Hpost & Hstock & Hkeep & Hlen).
  { intros item Hin Hnone. specialize (Hpos item Hin).
    specialize (Hcover item Hin). unfold current_stock in Hcover.
    rewrite Hnone in Hcover. lra. }
  rewrite Hpost. cbn [fst snd].
  assert (Hcur : forall name,
            current_stock
              (insert_journal_entry
                 (insert_journal_entry
                    (insert_journal_entry
                       (insert_journal_entry db' date "1-1000" "Kas"
                          ("Penjualan tunai " ++ code) total_amount 0 "GJ"
                          code)
                       date "4-1000" "Pendapatan Penjualan"
                       ("Penjualan tunai " ++ code) 0 total_amount "GJ" code)
                    date "5-1000" "Beban Pokok Penjualan"
                    ("HPP penjualan " ++ code) hpp' 0 "GJ" code)
                 date "1-1200" "Persediaan Ikan Mujair"
                 ("Pengurangan persediaan untuk " ++ code) 0 hpp' "GJ" code)
              name
            = current_stock db' name) by reflexivity.
  split; [reflexivity|]. split; [|split].
  - intros item Hin. rewrite Hcur, (Hstock item Hin).
    split; [reflexivity|]. specialize (Hcover item Hin). lra.
  - intros name Hn. rewrite Hcur. unfold current_stock.
    rewrite (Hkeep name Hn). reflexivity.
  - exact Hlen.
Qed.

Lemma create_transaction_distinct_products_witness :
  stock_covers stocked_store [mkCartItem "Ikan Mujair" "2" 2]
  /\ snd (create_transaction stocked_store [] 3 "TRX-1"
            [mkCartItem "Ikan Mujair" "2" 2] 4000 "kasir")
     = TransactionStored.
Proof.
  assert (Hc : stock_covers stocked_store [mkCartItem "Ikan Mujair" "2" 2]).
  { intros item [<-|[]]. vm_compute. discriminate. }
  split; [exact Hc|].
  apply (create_transaction_distinct_products stocked_store [] 3 "TRX-1"
           [mkCartItem "Ikan Mujair" "2" 2] 4000 "kasir").
  - cbn. repeat constructor. intros [].
  - intros item [<-|[]]. reflexivity.
  - exact Hc.
Defined.

(** X24: the stock check of [create_transaction] takes each line of the
    cart on its own: two lines of one product, each within the stock on
    the card, are stored even when together they exceed it, and the stock
    of the product afterwards is what it was less both quantities. *)
Theorem create_transaction_repeated_product (db : Store)
    (transactions : list TransactionRow) (date : Z) (code name : string)
    (text1 text2 : string) (quantity1 quantity2 total_amount : Q)
    (cashier : string) (last : InventoryRow) :
  get_last_inventory_entry db name = Some last ->
  quantity1 <= balance_quantity last ->
  quantity2 <= balance_quantity last ->
  let r := create_transaction db transactions date code
             [mkCartItem name text1 quantity1;
              mkCartItem name text2 quantity2]
             total_amount cashier in
  snd r = TransactionStored
  /\ current_stock (fst (fst r)) name
     = balance_quantity last - quantity1 - quantity2.
Proof.
  intros Hlast H1 H2. cbv zeta. unfold create_transaction.
  assert (Hcover : stock_covers db [mkCartItem name text1 quantity1;
                                    mkCartItem name text2 quantity2]).
  { intros item [<-|[<-|[]]]; unfold current_stock;
      cbn [cart_name cart_quantity]; rewrite Hlast; assumption. }
  rewrite (proj2 (stock_check db _) Hcover).
  cbn [post_items cart_name cart_quantity cart_quantity_text].
  rewrite Hlast. cbv zeta.
  rewrite (get_last_after_insert db _ name name)
    by (intros; reflexivity).
  rewrite String.eqb_refl. cbn [fst snd].
  split; [reflexivity|].
  unfold current_stock, insert_journal_entry.
  match goal with
  | |- context [get_last_inventory_entry ?d name] =>
      change (get_last_inventory_entry d name)
        with (get_last_inventory_entry
                (insert_inventory_row
                   (insert_inventory_row db
                      (fun id =>
                         mkInventoryRow id date code
                           ("Penjualan " ++ text1 ++ " kg " ++ name) name
                           0 0 0 quantity1 (balance_unit_price last)
                           (quantity1 * balance_unit_price last)
                           (balance_quantity last - quantity1)
                           (balance_unit_price last)
                           (balance_amount last
                            - quantity1 * balance_unit_price last)
                           cashier))
                   (fun id =>
                      mkInventoryRow id date code
                        ("Penjualan " ++ text2 ++ " kg " ++ name) name
                        0 0 0 quantity2 (balance_unit_price last)
                        (quantity2 * balance_unit_price last)
                        (balance_quantity last - quantity1 - quantity2)
                        (balance_unit_price last)
                        (balance_amount last
                         - quantity1 * balance_unit_price last
                         - quantity2 * balance_unit_price last)
                        cashier))
                name)
  end.
  rewrite (get_last_after_insert _ _ name name) by (intros; reflexivity).
  rewrite String.eqb_refl. reflexivity.
Qed.

Lemma create_transaction_repeated_product_witness :
  exists last,
    get_last_inventory_entry stocked_store "Ikan Mujair" = Some last
    /\ 4 <= balance_quantity last
    /\ snd (create_transaction stocked_store [] 3 "TRX-1"
              [mkCartItem "Ikan Mujair" "4" 4;
               mkCartItem "Ikan Mujair" "4" 4] 16000 "kasir")
       = TransactionStored
    /\ current_stock
         (fst (fst (create_transaction stocked_store [] 3 "TRX-1"
                      [mkCartItem "Ikan Mujair" "4" 4;
                       mkCartItem "Ikan Mujair" "4" 4] 16000 "kasir")))
         "Ikan Mujair" < 0.
Proof.
  destruct (get_last_inventory_entry stocked_store "Ikan Mujair")
    as [last|] eqn:El; [|vm_compute in El; discriminate].
  assert (Hq : balance_quantity last = 6).
  { vm_compute in El. injection El as <-. reflexivity. }
  assert (H4 : 4 <= balance_quantity last) by (rewrite Hq; discriminate).
  exists last. split; [reflexivity|]. split; [exact H4|].
  destruct (create_transaction_repeated_product stocked_store [] 3 "TRX-1"
              "Ikan Mujair" "4" "4" 4 4 16000 "kasir" last El H4 H4)
    as [Hs Hc].
  split; [exact Hs|]. rewrite Hc, Hq. reflexivity.
Defined.

(** *** Closing entries *)

Section ClosingEntry.
Variables (db : Store) (date : Z) (code name description : string)
          (debit credit : Q).

Let closed : Store :=
  create_closing_entry db date code name description debit credit.

Lemma closing_entry_not_selected (end_date : option Z)
    (journal_types : option (list string)) :
  type_filter journal_types "CJ" = false ->
  filter (selected end_date journal_types) (journal_entries closed)
  = filter (selected end_date journal_types) (journal_entries db).
Proof.
  intros Hcj. unfold closed, create_closing_entry.
  rewrite journal_entries_insert, filter_app. cbn [filter].
  unfold selected at 2. cbn [je_date je_journal_type].
  rewrite Hcj, andb_false_r. apply app_nil_r.
Qed.

Lemma closing_entry_final_balances (end_date : option Z)
    (journal_types : option (list string)) :
  type_filter journal_types "CJ" = false ->
  get_final_balances closed end_date journal_types
  = get_final_balances db end_date journal_types.
Proof.
  intros Hcj. unfold get_final_balances.
  rewrite (closing_entry_not_selected end_date journal_types Hcj).
  reflexivity.
Qed.

Lemma closing_entry_ledger_balance (account : string)
    (end_date : option Z) (journal_types : option (list string)) :
  type_filter journal_types "CJ" = false ->
  get_ledger_balance closed account end_date journal_types
  = get_ledger_balance db account end_date journal_types.
Proof.
  intros Hcj. unfold get_ledger_balance.
  change (get_all_accounts closed) with (get_all_accounts db).
  destruct (find _ (get_all_accounts db)) as [acc|]; [|reflexivity].
  cbv zeta. unfold closed, create_closing_entry.
  rewrite journal_entries_insert, filter_app. cbn [filter].
  cbn [je_account_code je_date je_journal_type].
  rewrite Hcj, andb_false_r, app_nil_r. reflexivity.
Qed.

End ClosingEntry.

(** X25: a closing entry is stored as one journal line of class CJ under
    the reference CLOSING, and no report reads it: the financial
    reports, the worksheet and the trial balance of every date are what
    they were before [create_closing_entry], so revenue and expense
    accounts keep their balances on the statements after they have been
    closed. *)
Theorem create_closing_entry_unseen (db : Store) (date : Z)
    (code name description : string) (debit credit : Q)
    (end_date : Z) (as_of : option Z) :
  let closed :=
    create_closing_entry db date code name description debit credit in
  (exists line,
     journal_entries closed = (journal_entries db ++ [line])%list
     /\ je_journal_type line = "CJ" /\ je_ref_code line = "CLOSING"
     /\ je_account_code line = code
     /\ je_debit line = debit /\ je_credit line = credit)
  /\ generate_financial_reports closed end_date
     = generate_financial_reports db end_date
  /\ akuntan_worksheet closed end_date = akuntan_worksheet db end_date
  /\ get_trial_balance closed as_of = get_trial_balance db as_of.
Proof.
  intros closed. split; [|split; [|split]].
  - eexists. unfold closed, create_closing_entry.
    rewrite journal_entries_insert. repeat split; reflexivity.
  - unfold generate_financial_reports, closed.
    rewrite (closing_entry_final_balances db date code name description
               debit credit (Some end_date) report_types) by reflexivity.
    reflexivity.
  - unfold akuntan_worksheet, worksheet_data, closed.
    rewrite (closing_entry_final_balances db date code name description
               debit credit (Some end_date) (Some ["GJ"])) by reflexivity.
    rewrite (closing_entry_final_balances db date code name description
               debit credit (Some end_date) (Some ["GJ"; "AJ"]))
      by reflexivity.
    change (get_all_accounts
              (create_closing_entry db date code name description debit
                                    credit))
      with (get_all_accounts db).
    assert (Haj : get_journal_entries
                    (create_closing_entry db date code name description
                                          debit credit)
                    (Some "AJ") None (Some end_date)
                  = get_journal_entries db (Some "AJ") None (Some end_date)).
    { unfold get_journal_entries, create_closing_entry.
      rewrite journal_entries_insert, filter_app. cbn [filter].
      cbn [je_journal_type String.eqb Ascii.eqb Bool.eqb andb].
      rewrite app_nil_r. reflexivity. }
    rewrite Haj. reflexivity.
  - unfold get_trial_balance, closed.
    change (get_all_accounts
              (create_closing_entry db date code name description debit
                                    credit))
      with (get_all_accounts db).
    apply flat_map_ext. intros account.
    rewrite (closing_entry_ledger_balance db date code name description
               debit credit (account_code account) as_of (Some ["GJ"]))
      by reflexivity.
    reflexivity.
Qed.

(** *** Deleting an account *)

Lemma codes_without (code : string) (accs : list Account) :
  map account_code
      (filter (fun a => negb (String.eqb (account_code a) code)) accs)
  = filter (fun c => negb (String.eqb c code)) (map account_code accs).
Proof.
  induction accs as [|a accs IH]; [reflexivity|].
  cbn [filter map]. destruct (String.eqb (account_code a) code);
    cbn [negb map]; [exact IH | rewrite IH; reflexivity].
Qed.

Lemma lines_without (code : string) (entries : list JournalEntry) :
  List.length (filter (fun e => String.eqb (je_account_code e) code)
                      entries) = 0%nat ->
  filter (fun e => negb (String.eqb (je_account_code e) code)) entries
  = entries.
Proof.
  induction entries as [|e entries IH]; [reflexivity|].
  cbn [filter]. destruct (String.eqb (je_account_code e) code);
    cbn [negb List.length]; [discriminate|].
  intros H. rewrite IH by exact H. reflexivity.
Qed.

(** X26: [akuntan_delete_account] does nothing without the accountant's
    session.  With it, it removes the account and, in cascade, every
    journal line on it, and nothing else: the other lines stay in order,
    the code is no longer registered and its ledger balance reads 0, and,
    the codes of the registry being unique, they stay unique and the
    ledger balance of every other account is what it was. *)
Theorem akuntan_delete_account_cascade (db : Store) (code : string) :
  unique_codes db ->
  let r := akuntan_delete_account db true code in
  akuntan_delete_account db false code = (db, false)
  /\ snd r = true
  /\ journal_entries (fst r)
     = filter (fun e => negb (String.eqb (je_account_code e) code))
              (journal_entries db)
  /\ accounts (fst r)
     = filter (fun a => negb (String.eqb (account_code a) code))
              (accounts db)
  /\ ~ registered (fst r) code
  /\ unique_codes (fst r)
  /\ (forall d t, get_ledger_balance (fst r) code d t = 0)
  /\ (forall c d t, c <> code ->
        get_ledger_balance (fst r) c d t = get_ledger_balance db c d t).
Proof.
  intros Hnd. cbv zeta.
  split; [reflexivity|]. split; [reflexivity|].
  assert (Hj : journal_entries (fst (akuntan_delete_account db true code))
               = filter (fun e => negb (String.eqb (je_account_code e) code))
                        (journal_entries db)).
  { unfold akuntan_delete_account. cbn [negb fst]. cbv zeta.
    destruct (0 <? _)%nat eqn:Hcount; cbn [journal_entries].
    - reflexivity.
    - apply Nat.ltb_ge in Hcount. symmetry. apply lines_without. lia. }
  assert (Ha : accounts (fst (akuntan_delete_account db true code))
               = filter (fun a => negb (String.eqb (account_code a) code))
                        (accounts db)).
  { unfold akuntan_delete_account. cbn [negb fst]. cbv zeta.
    destruct (0 <? _)%nat; reflexivity. }
  set (db' := fst (akuntan_delete_account db true code)) in *.
  assert (Hin : forall a, In a (get_all_accounts db')
                          <-> In a (get_all_accounts db)
                              /\ account_code a <> code).
  { intros a. unfold get_all_accounts. rewrite !order_by_in, Ha, filter_In.
    rewrite negb_true_iff, String.eqb_neq. reflexivity. }
  assert (Hnd' : unique_codes db').
  { unfold unique_codes, get_all_accounts in *.
    eapply Permutation_NoDup.
    - apply Permutation_map. symmetry. apply order_by_perm.
    - rewrite Ha, codes_without. apply NoDup_filter.
      eapply Permutation_NoDup; [|exact Hnd].
      apply Permutation_map. apply order_by_perm. }
  assert (Hgone : ~ registered db' code).
  { intros (a & Hain & Hcode). apply Hin in Hain. tauto. }
  split; [exact Hj|]. split; [exact Ha|]. split; [exact Hgone|].
  split; [exact Hnd'|]. split.
  - intros d t. unfold get_ledger_balance.
    destruct (find _ (get_all_accounts db')) as [a|] eqn:Ef; [|reflexivity].
    exfalso. apply find_some in Ef. destruct Ef as [Hain E].
    apply Hgone. exists a. split; [exact Hain | apply String.eqb_eq, E].
  - intros c d t Hne. unfold get_ledger_balance.
    assert (Hfind : find (fun acc => String.eqb (account_code acc) c)
                         (get_all_accounts db')
                    = find (fun acc => String.eqb (account_code acc) c)
                           (get_all_accounts db)).
    { destruct (find _ (get_all_accounts db)) as [a|] eqn:Ef.
      - apply find_some in Ef. destruct Ef as [Hain E].
        apply String.eqb_eq in E. subst c.
        apply find_account_in; [exact Hnd'|]. apply Hin. split; assumption.
      - destruct (find _ (get_all_accounts db')) as [a|] eqn:Ef';
          [|reflexivity].
        apply find_some in Ef'. destruct Ef' as [Hain E].
        apply Hin in Hain. destruct Hain as [Hain _].
        apply (find_none _ _ Ef) in Hain. congruence. }
    rewrite Hfind.
    destruct (find _ (get_all_accounts db)) as [a|]; [|reflexivity].
    cbv zeta. rewrite Hj.
    assert (Hf : forall (q : JournalEntry -> bool),
              filter (fun e => String.eqb (je_account_code e) c && q e)
                     (filter (fun e => negb (String.eqb (je_account_code e)
                                                        code))
                             (journal_entries db))
              = filter (fun e => String.eqb (je_account_code e) c && q e)
                       (journal_entries db)).
    { intros q. generalize (journal_entries db) as es.
      induction es as [|e es IH]; [reflexivity|].
      cbn [filter].
      destruct (String.eqb (je_account_code e) code) eqn:E;
        cbn [negb filter]; rewrite IH; [|reflexivity].
      apply String.eqb_eq in E.
      destruct (String.eqb_spec (je_account_code e) c) as [E'|E'];
        [congruence | reflexivity]. }
    assert (Hsel :
      filter (fun e => String.eqb (je_account_code e) c
                       && date_filter d (je_date e)
                       && type_filter t (je_journal_type e))
             (filter (fun e => negb (String.eqb (je_account_code e) code))
                     (journal_entries db))
      = filter (fun e => String.eqb (je_account_code e) c
                         && date_filter d (je_date e)
                         && type_filter t (je_journal_type e))
               (journal_entries db)).
    { rewrite (filter_ext _
                 (fun e => String.eqb (je_account_code e) c
                           && (date_filter d (je_date e)
                               && type_filter t (je_journal_type e))))
        by (intros e; symmetry; apply andb_assoc).
      rewrite Hf.
      apply filter_ext. intros e. apply andb_assoc. }
    rewrite Hsel. reflexivity.
Qed.

Lemma akuntan_delete_account_cascade_witness :
  unique_codes trading_store
  /\ ~ registered (fst (akuntan_delete_account trading_store true "4-1000"))
                  "4-1000"
  /\ unique_codes (fst (akuntan_delete_account trading_store true "4-1000")).
Proof.
  assert (H : unique_codes trading_store) by distinct_codes.
  split; [exact H|].
  pose proof (akuntan_delete_account_cascade trading_store "4-1000" H)
    as (_ & _ & _ & _ & Hg & Hu & _).
  split; [exact Hg | exact Hu].
Defined.

(** *** Manual inventory entry *)

Lemma process_purchase_bibit (db : Store) (stamp : string) (date : Z)
    (item_name : string) (quantity unit_price total_amount : Q)
    (employee description prefix : string) :
  let r := process_purchase db stamp date "bibit" item_name quantity
             unit_price total_amount employee description prefix in
  snd r = true /\ sales (fst r) = sales db.
Proof.
  cbv zeta. unfold process_purchase.
  change (account_mapping "bibit")
    with (Some (("1-1200", "Persediaan Ikan Mujair"), ("1-1000", "Kas"))).
  cbv zeta. cbn [String.eqb Ascii.eqb Bool.eqb fst snd].
  destruct (get_last_inventory_entry _ item_name);
    cbv beta iota zeta; split; reflexivity.
Qed.

(** X27: [akuntan_inventory_add] answers 401 without the accountant's
    session and 400 when the date or the product is missing or the
    quantity or the price is not positive, and leaves the store alone in
    both cases.  Every other request is recorded as a purchase of
    ['bibit'] for quantity times price and answered 200; the branch that
    would record a sale is never reached, so the route adds no sales
    row whatever the outgoing quantity of the form. *)
Theorem akuntan_inventory_add_only_purchases (db : Store)
    (authorized : bool) (username stamp : string) (date : option Z)
    (item_name : string) (quantity unit_price quantity_out : Q)
    (description ref_code : option string) :
  let r := akuntan_inventory_add db authorized username stamp date item_name
             quantity unit_price quantity_out description ref_code in
  (snd r = 401%Z <-> authorized = false)
  /\ (snd r = 400%Z
      <-> authorized = true
          /\ (date = None \/ item_name = "" \/ quantity <= 0
              \/ unit_price <= 0))
  /\ (snd r = 401%Z \/ snd r = 400%Z -> fst r = db)
  /\ (snd r <> 401%Z -> snd r <> 400%Z ->
      snd r = 200%Z
      /\ exists d,
           date = Some d
           /\ fst r
              = fst (process_purchase db stamp d "bibit" item_name quantity
                       unit_price (quantity * unit_price) username
                       (get_or description "Pembelian manual oleh akuntan")
                       (get_or ref_code "MANUAL-BL")))
  /\ sales (fst r) = sales db.
Proof.
  cbv zeta. unfold akuntan_inventory_add.
  destruct authorized; cbn [negb].
  2: { cbn [fst snd]. split; [|split; [|split; [|split]]].
       - split; reflexivity.
       - split; [discriminate | intros [H _]; discriminate].
       - intros _. reflexivity.
       - intros H. exfalso. apply H. reflexivity.
       - reflexivity. }
  assert (Hrefused : forall reason : Prop, reason ->
    (400%Z = 401%Z <-> true = false)
    /\ (400%Z = 400%Z <-> true = true /\ reason)
    /\ (400%Z = 401%Z \/ 400%Z = 400%Z -> db = db)
    /\ (400%Z <> 401%Z -> 400%Z <> 400%Z ->
        400%Z = 200%Z
        /\ exists d,
             date = Some d
             /\ db
                = fst (process_purchase db stamp d "bibit" item_name quantity
                         unit_price (quantity * unit_price) username
                         (get_or description "Pembelian manual oleh akuntan")
                         (get_or ref_code "MANUAL-BL")))
    /\ sales db = sales db).
  { intros reason Hreason. split; [|split; [|split; [|split]]].
    - split; discriminate.
    - split; [intros _; split; [reflexivity | exact Hreason] | reflexivity].
    - intros _. reflexivity.
    - intros _ H. exfalso. apply H. reflexivity.
    - reflexivity. }
  destruct date as [d|];
    [|cbn [fst snd]; apply Hrefused; left; reflexivity].
  destruct (String.eqb_spec item_name "") as [Hn|Hn]; cbn [negb andb];
    [cbn [fst snd]; apply Hrefused; right; left; exact Hn|].
  destruct (Qgtb quantity 0) eqn:Hq; cbn [negb andb];
    [|apply Qgtb_false in Hq; cbn [fst snd]; apply Hrefused;
      right; right; left; exact Hq].
  destruct (Qgtb unit_price 0) eqn:Hp; cbn [negb andb];
    [|apply Qgtb_false in Hp; cbn [fst snd]; apply Hrefused;
      right; right; right; exact Hp].
  clear Hrefused.
  apply Qgtb_true in Hq. apply Qgtb_true in Hp.
  pose proof (process_purchase_bibit db stamp d item_name quantity unit_price
                (quantity * unit_price) username
                (get_or description "Pembelian manual oleh akuntan")
                (get_or ref_code "MANUAL-BL")) as Hpur.
  cbv zeta in Hpur. destruct Hpur as [Hok Hsales].
  destruct (process_purchase db stamp d "bibit" item_name quantity
              unit_price (quantity * unit_price) username
              (get_or description "Pembelian manual oleh akuntan")
              (get_or ref_code "MANUAL-BL")) as [db' success] eqn:Epur.
  cbn [fst snd] in *. subst success. cbn [fst snd].
  split; [split; discriminate|]. split.
  - split; [discriminate|].
    intros (_ & [H|[H|[H|H]]]);
      [discriminate | contradiction | lra | lra].
  - split; [intros [H|H]; discriminate|]. split.
    + intros _ _. split; [reflexivity|]. exists d.
      split; [reflexivity | rewrite Epur; reflexivity].
    + exact Hsales.
Qed.

(** *** The prior row of an inventory movement *)

Lemma last_entry_of_product (db : Store) (product_name : string) :
  (get_last_inventory_entry db product_name = None
   <-> forall r, In r (inventory_card db) ->
                 inv_product_name r <> product_name)
  /\ forall last,
       get_last_inventory_entry db product_name = Some last ->
       In last (inventory_card db)
       /\ inv_product_name last = product_name
       /\ forall r, In r (inventory_card db) ->
                    inv_product_name r = product_name ->
                    (inv_id r <= inv_id last)%Z.
Proof.
  unfold get_last_inventory_entry.
  set (rows := filter (fun r => String.eqb (inv_product_name r)
                                           product_name)
                      (inventory_card db)).
  pose proof (order_by_head_greatest inv_id rows) as Hgreatest.
  assert (Hin : forall r,
            In r (order_by (fun a b => (inv_id b <=? inv_id a)%Z) rows)
            <-> In r (inventory_card db)
                /\ inv_product_name r = product_name).
  { intros r. rewrite order_by_in. unfold rows.
    rewrite filter_In, String.eqb_eq. reflexivity. }
  destruct (order_by (fun a b => (inv_id b <=? inv_id a)%Z) rows)
    as [|h t] eqn:E; cbn [hd_error].
  - split.
    + split; [|reflexivity]. intros _ r Hr Hp.
      apply (proj2 (Hin r)). split; assumption.
    + intros last Hlast. discriminate.
  - destruct (proj1 (Hin h) (or_introl eq_refl)) as [Hh Hp]. split.
    + split; [discriminate|]. intros Hno. exfalso. exact (Hno h Hh Hp).
    + intros last Hlast. injection Hlast as <-.
      split; [exact Hh|]. split; [exact Hp|].
      intros r Hr Hrp. apply (Hgreatest h eq_refl).
      apply Hin. split; assumption.
Qed.

(** C7: the prior row of a product is its row with the greatest id on the
    inventory card, and there is none exactly when the product has no row.
    The row appended by a stock purchase ([process_purchase] of a 'bibit'
    item) and the row appended by a successful [process_sale] satisfy the
    running-balance recurrence against that prior row (against zero
    balances when there is none); a sale takes its cost basis from the
    prior row's moving average: [sales_unit_price] is the prior
    [balance_unit_price] and [sales_amount] is the quantity times that
    price. *)
Theorem inventory_rows_running_balance
    (db : Store) (stamp : string) (date : Z) (item_name : string)
    (quantity unit_price total_amount : Q)
    (employee description prefix : string) :
  (get_last_inventory_entry db item_name = None
   <-> forall r, In r (inventory_card db) -> inv_product_name r <> item_name)
  /\ (forall last,
        get_last_inventory_entry db item_name = Some last ->
        In last (inventory_card db)
        /\ inv_product_name last = item_name
        /\ forall r, In r (inventory_card db) ->
                     inv_product_name r = item_name ->
                     (inv_id r <= inv_id last)%Z)
  /\ (exists row,
        inventory_card
          (fst (process_purchase db stamp date "bibit" item_name quantity
                  unit_price total_amount employee description prefix))
        = (inventory_card db ++ [row])%list
        /\ inv_product_name row = item_name
        /\ purchase_quantity row = quantity
        /\ purchase_amount row = total_amount
        /\ sales_quantity row = 0 /\ sales_amount row = 0
        /\ running_balance
             (match get_last_inventory_entry db item_name with
              | Some last => balance_quantity last
              | None => 0
              end)
             (match get_last_inventory_entry db item_name with
              | Some last => balance_amount last
              | None => 0
              end)
             row)
  /\ (snd (process_sale db stamp date item_name quantity unit_price
             total_amount employee description prefix) = SaleDone ->
      exists row last,
        get_last_inventory_entry db item_name = Some last
        /\ inventory_card
             (fst (process_sale db stamp date item_name quantity unit_price
                     total_amount employee description prefix))
           = (inventory_card db ++ [row])%list
        /\ inv_product_name row = item_name
        /\ purchase_quantity row = 0 /\ purchase_amount row = 0
        /\ sales_quantity row = quantity
        /\ sales_unit_price row = balance_unit_price last
        /\ sales_amount row = quantity * balance_unit_price last
        /\ running_balance (balance_quantity last) (balance_amount last) row).
Proof.
  destruct (last_entry_of_product db item_name) as [Hnone Hsome].
  split; [exact Hnone|]. split; [exact Hsome|].
  clear Hnone Hsome. split.
  - unfold process_purchase.
    change (account_mapping "bibit")
      with (Some (("1-1200", "Persediaan Ikan Mujair"), ("1-1000", "Kas"))).
    change ("bibit" =? "bibit")%string with true. cbv beta iota zeta.
    change (get_last_inventory_entry
              (insert_journal_entry
                 (insert_journal_entry
                    (mkStore (accounts db) (journal_entries db) (sales db)
                       (purchases db
                        ++ [mkPurchase (next_id purchase_id (purchases db))
                              date "bibit" item_name quantity unit_price
                              total_amount employee "approved"])%list
                       (inventory_card db))
                    date (fst ("1-1200", "Persediaan Ikan Mujair"))
                    (snd ("1-1200", "Persediaan Ikan Mujair"))
                    (str_or description ("Pembelian " ++ item_name))
                    total_amount 0 "GJ"
                    (prefix ++ stamp
                     ++ pad3 (next_id purchase_id (purchases db))))
                 date (fst ("1-1000", "Kas")) (snd ("1-1000", "Kas"))
                 (str_or description ("Pembelian " ++ item_name))
                 0 total_amount "GJ"
                 (prefix ++ stamp
                  ++ pad3 (next_id purchase_id (purchases db))))
              item_name)
      with (get_last_inventory_entry db item_name).
    destruct (get_last_inventory_entry db item_name) as [last|];
      cbv beta iota zeta;
      unfold insert_journal_entry, insert_inventory_row;
      cbn [fst snd inventory_card]; eexists; (split; [reflexivity|]);
      cbn [inv_product_name purchase_quantity purchase_amount
           sales_quantity sales_amount];
      repeat (split; [reflexivity|]);
      unfold running_balance;
      cbn [balance_quantity balance_amount balance_unit_price
           purchase_quantity purchase_amount sales_quantity sales_amount];
      (split; [ring|]); (split; [ring|]); apply average_price_spec.
  - unfold process_sale.
    change (get_last_inventory_entry
              (mkStore (accounts db) (journal_entries db)
                 (sales db
                  ++ [mkSale (next_id sale_id (sales db)) date item_name
                        quantity unit_price total_amount employee
                        "completed"])%list
                 (purchases db) (inventory_card db))
              item_name)
      with (get_last_inventory_entry db item_name).
    destruct (get_last_inventory_entry db item_name) as [last|];
      [|discriminate].
    destruct (Qltb (balance_quantity last) quantity); [discriminate|].
    intros _. unfold insert_journal_entry, insert_inventory_row.
    cbn [fst snd inventory_card]. eexists. exists last.
    split; [reflexivity|]. split; [reflexivity|].
    cbn [inv_product_name sales_quantity sales_unit_price sales_amount
         purchase_quantity purchase_amount].
    repeat (split; [reflexivity|]).
    unfold running_balance.
    cbn [balance_quantity balance_amount balance_unit_price
         purchase_quantity purchase_amount sales_quantity sales_amount].
    (split; [ring|]); (split; [ring|]); apply average_price_spec.
Qed.

Lemma inventory_rows_running_balance_witness :
  snd (process_sale stocked_store "2026-11-03T12:00:00" 3 "Ikan Mujair" 2
         2000 4000 "kasir" "" "JL") = SaleDone
  /\ exists row last,
       get_last_inventory_entry stocked_store "Ikan Mujair" = Some last
       /\ inv_product_name last = "Ikan Mujair"
       /\ inventory_card
            (fst (process_sale stocked_store "2026-11-03T12:00:00" 3
                    "Ikan Mujair" 2 2000 4000 "kasir" "" "JL"))
          = (inventory_card stocked_store ++ [row])%list
       /\ sales_unit_price row = balance_unit_price last
       /\ running_balance (balance_quantity last) (balance_amount last) row.
Proof.
  assert (Hdone : snd (process_sale stocked_store "2026-11-03T12:00:00" 3
                         "Ikan Mujair" 2 2000 4000 "kasir" "" "JL")
                  = SaleDone) by (vm_compute; reflexivity).
  split; [exact Hdone|].
  destruct (inventory_rows_running_balance stocked_store
              "2026-11-03T12:00:00" 3 "Ikan Mujair" 2 2000 4000
              "kasir" "" "JL") as (_ & Hprior & _ & Hsale).
  destruct (Hsale Hdone)
    as (row & last & Hlast & Hcard & _ & _ & _ & _ & Hprice & _ & Hrun).
  exists row, last. split; [exact Hlast|].
  split; [apply (Hprior last Hlast)|].
  split; [exact Hcard|]. split; [exact Hprice | exact Hrun].
Defined.
